(** * FinZeroCurve: a zero-rate curve and its queries

    A shallow embedding of [financepy/market/curves/FinZeroCurve.py].

    Numbers.  Python and numpy floats are read as real numbers: [np.exp],
    [np.log] and [np.power] become [exp], [ln] and [Rpower].  The reading is
    exact where these functions are real valued (positive argument of the
    logarithm, positive base of the power); statements that depend on such
    an operation carry the corresponding hypothesis.  Rounding is not
    modelled, so "within tolerance" reads as equality.

    Exceptions.  A Python call either returns a value or raises; this is the
    type [result].  Dividing a Python float by zero raises
    [ZeroDivisionError]; numpy scalars do not raise on division.

    Storage.  The two numpy arrays of a curve object live in a heap of
    arrays addressed by reference, so that copying and in-place update in
    [bump] can be told apart from sharing. *)

From Stdlib Require Import Reals Lra ZArith.
From stdpp Require Import base decidable option list gmap strings.

Local Open Scope R_scope.

(** ** Exceptions and results *)

Inductive PyExc : Type :=
| FinError (msg : string)
| ValueError (msg : string)
| ZeroDivisionError
| TypeError
| IndexError
| DanglingRef.

(** [TypeError] stands for the exception of an operator applied to an
    operand of the wrong type. *)

Inductive result (A : Type) : Type :=
| Ok (a : A)
| Raise (e : PyExc).
Arguments Ok {A} a.
Arguments Raise {A} e.

#[global] Instance result_ret : MRet result := fun _ a => Ok a.
#[global] Instance result_bind : MBind result := fun _ _ k m =>
  match m with
  | Ok a => k a
  | Raise e => Raise e
  end.

Definition raises {A} (m : result A) : Prop := ∃ e, m = Raise e.
Definition returns {A} (m : result A) : Prop := ∃ a, m = Ok a.

#[global] Instance R_eq_dec : EqDecision R := Req_dec_T.
#[global] Instance Rlt_decision (x y : R) : Decision (x < y) := Rlt_dec x y.
#[global] Instance Rle_decision (x y : R) : Decision (x <= y) := Rle_dec x y.

(** ** Python-level arithmetic *)

(** [x / y] on Python floats. *)
Definition pydiv (x y : R) : result R :=
  if decide (y = 0) then Raise ZeroDivisionError else Ok (x / y).

(** [x ** y] on Python floats: a zero base with a negative exponent raises;
    otherwise the power, real valued for a positive base. *)
Definition pypow (x y : R) : result R :=
  if decide (x = 0 ∧ y < 0) then Raise ZeroDivisionError else Ok (Rpower x y).

(** ** Values a caller can pass *)

(** Modelled from the spec: the date collaborator (FinDate) "supports
    subtraction yielding a day count, and ordering comparisons"; a date is
    its serial day number. *)
Record FinDate : Type := mkDate { excelDate : Z }.

Definition date_sub (d1 d2 : FinDate) : Z := (excelDate d1 - excelDate d2)%Z.
Definition date_lt (d1 d2 : FinDate) : Prop := (excelDate d1 < excelDate d2)%Z.
#[global] Instance date_lt_dec d1 d2 : Decision (date_lt d1 d2).
Proof. unfold date_lt. apply _. Defined.

(** An element of [timesOrDates], by its run-time type.  [PyFloat] stands
    for every instance of [float]. *)
Inductive PyVal : Type :=
| PyFloat (x : R)
| PyInt (n : Z)
| PyDate (d : FinDate)
| PyStr (s : string).

(** An argument meant to select a member of an enumeration [E]: a member,
    or any other object, given by its [str()]. *)
Inductive Selector (E : Type) : Type :=
| Member (e : E)
| Foreign (repr : string).
Arguments Member {E} e.
Arguments Foreign {E} repr.

(** ** Collaborators outside this file *)

Class Conventions : Type := {
  FinFrequencyTypes : Type;
  FinDayCountTypes : Type;
  FinInterpMethods : Type;
}.

Class Collaborators `{Conventions} : Type := {
  (** [FinFrequency(frequencyType)]: periods per year, -1 for continuous. *)
  FinFrequency : FinFrequencyTypes → Z;
  (** [FinDayCount(dayCountType).yearFrac(d1, d2)]. *)
  yearFrac : FinDayCountTypes → FinDate → FinDate → R;
  (** The constant of finutils.FinGlobalVariables, a positive number of
      days. *)
  gDaysInYear : R;
  gDaysInYear_pos : 0 < gDaysInYear;
  (** [interpMethod.value]. *)
  interp_value : FinInterpMethods → Z;
  (** [interpolate(t, times, values, method)]. *)
  interpolate : R → list R → list R → Z → result R;
}.

(** Modelled from the spec: [testMonotonicity] (finutils.FinMath) accepts
    exactly the non-decreasing sequences ("NotMonotonic: resolved time
    sequence is not non-decreasing"). *)
Fixpoint testMonotonicity (x : list R) : bool :=
  match x with
  | a :: tl =>
      match tl with
      | b :: _ => if decide (a <= b) then testMonotonicity tl else false
      | [] => true
      end
  | [] => true
  end.

(** ** The heap of numpy arrays *)

(** A numpy array is known by its reference; the heap gives its current
    content.  [DanglingRef] answers a reference that was never allocated,
    which no run of the program holds. *)
Definition ref : Type := nat.
Abbreviation heap := (gmap nat (list R)).

(** A computation that reads and updates the heap and may raise. *)
Definition Py (A : Type) : Type := heap → result (A * heap).

#[global] Instance Py_ret : MRet Py := fun _ a h => Ok (a, h).
#[global] Instance Py_bind : MBind Py := fun _ _ k m h =>
  match m h with
  | Ok (a, h') => k a h'
  | Raise e => Raise e
  end.

Definition py_raise {A} (e : PyExc) : Py A := fun _ => Raise e.

(** [np.array(xs)]: a new array. *)
Definition np_array (xs : list R) : Py ref := fun h =>
  let a := fresh (dom h) in Ok (a, <[a := xs]> h).

Definition np_read (a : ref) : Py (list R) := fun h =>
  match h !! a with
  | Some xs => Ok (xs, h)
  | None => Raise DanglingRef
  end.

(** [a.copy()] *)
Definition np_copy (a : ref) : Py ref := xs ← np_read a; np_array xs.

(** [len(a)] *)
Definition np_len (a : ref) : Py nat := xs ← np_read a; mret (length xs).

(** [a[i]] *)
Definition np_getitem (a : ref) (i : nat) : Py R :=
  xs ← np_read a;
  match xs !! i with
  | Some x => mret x
  | None => py_raise IndexError
  end.

(** [a[i] = x], in place. *)
Definition np_setitem (a : ref) (i : nat) (x : R) : Py unit := fun h =>
  match h !! a with
  | Some xs =>
      if decide (i < length xs)%nat then Ok (tt, <[a := <[i := x]> xs]> h)
      else Raise IndexError
  | None => Raise DanglingRef
  end.

(** [for i in idx: body(i)] *)
Fixpoint for_each (idx : list nat) (body : nat → Py unit) : Py unit :=
  match idx with
  | [] => mret tt
  | i :: rest => body i;; for_each rest body
  end.

(** ** The discount curve that [bump] makes *)

Record DiscountCurve `{Conventions} : Type := mkDiscountCurve {
  disc_curveDate : FinDate;
  disc_times : ref;
  disc_values : ref;
  disc_interpMethod : FinInterpMethods;
}.

(** Modelled from the spec: the constructor of FinDiscountCurve
    (market.curves.FinDiscountCurve) is not part of this file; the spec has
    the curve it makes keep "the original time grid, anchor date, and
    interpolation method", so the object holds the four arguments it is
    given. *)
Definition FinDiscountCurve `{Conventions} (curveDate : FinDate)
    (times values : ref) (interpMethod : FinInterpMethods)
    : Py DiscountCurve :=
  mret (mkDiscountCurve _ curveDate times values interpMethod).

Module FinZeroCurve.

(** The object after construction, arrays by value. *)
Record t `{Conventions} : Type := mk {
  _curveDate : FinDate;
  _times : list R;
  _values : list R;
  _dayCountType : FinDayCountTypes;
  _frequencyType : FinFrequencyTypes;
  _interpMethod : FinInterpMethods;
}.

Section Build.
Context {conv : Conventions} {coll : Collaborators}.

(** The operand [t] of [t < 0.0] in the float branch. *)
Definition as_number (v : PyVal) : result R :=
  match v with
  | PyFloat x => Ok x
  | PyInt n => Ok (IZR n)
  | PyDate _ | PyStr _ => Raise TypeError
  end.

(** [timesOrDates[i] - curveDate]: only a date has this subtraction. *)
Definition days_from (curveDate : FinDate) (v : PyVal)
    : result (FinDate * Z) :=
  match v with
  | PyDate d => Ok (d, date_sub d curveDate)
  | PyFloat _ | PyInt _ | PyStr _ => Raise TypeError
  end.

(** Body of the loop of lines 62-75. *)
Definition float_quote (freq : Z) (td : PyVal) (r : R) : result (R * R) :=
  t ← as_number td;
  if decide (t < 0) then Raise (FinError "Times must be > 0.")
  else
    df ← (if decide (freq = (-1)%Z) then Ok (exp (- r * t))
          else q ← pydiv r (IZR freq);
               Ok (1 / Rpower (1 + q) (IZR freq * t)));
    Ok (t, df).

(** Body of the loop of lines 83-97; dividing by the positive constant
    [gDaysInYear] does not raise. *)
Definition date_quote (curveDate : FinDate) (dc : FinDayCountTypes)
    (freq : Z) (td : PyVal) (r : R) : result (R * R) :=
  '(d, days) ← days_from curveDate td;
  let t := IZR days / gDaysInYear in
  if decide (t < 0) then Raise (FinError "Times must be > 0.")
  else
    let alpha := yearFrac dc curveDate d in
    df ← (if decide (freq = (-1)%Z) then Ok (exp (- r * t))
          else q ← pydiv r (IZR freq);
               Ok (1 / Rpower (1 + q) (IZR freq * alpha)));
    Ok (t, df).

(** [for i in range(0, len(timesOrDates))], appending to [times] and
    [values]. *)
Fixpoint quotes_loop (body : PyVal → R → result (R * R))
    (timesOrDates : list PyVal) (zeroRates : list R)
    : result (list R * list R) :=
  match timesOrDates with
  | [] => Ok ([], [])
  | td :: tds =>
      match zeroRates with
      | [] => Raise IndexError
      | r :: rs =>
          '(t, df) ← body td r;
          '(times, values) ← quotes_loop body tds rs;
          Ok (t :: times, df :: values)
      end
  end.

Definition __init__ (curveDate : FinDate) (timesOrDates : list PyVal)
    (zeroRates : list R)
    (frequencyType : Selector FinFrequencyTypes)
    (dayCountType : Selector FinDayCountTypes)
    (interpMethod : FinInterpMethods) : result t :=
  if decide (length timesOrDates = 0%nat) then
    Raise (FinError "Times has zero length")
  else if decide (length timesOrDates ≠ length zeroRates) then
    Raise (FinError "Times and Values are not the same")
  else
    match frequencyType with
    | Foreign s => Raise (FinError ("Unknown Frequency type " +:+ s))
    | Member ft =>
    match dayCountType with
    | Foreign s =>
        Raise (FinError ("Unknown Cap Floor DayCountRule type " +:+ s))
    | Member dct =>
        let freq := FinFrequency ft in
        '(times, values) ←
          match head timesOrDates with
          | Some (PyFloat _) =>
              quotes_loop (float_quote freq) timesOrDates zeroRates
          | Some (PyDate _) =>
              quotes_loop (date_quote curveDate dct freq)
                timesOrDates zeroRates
          | _ =>
              Raise (FinError
                "Input timeOrDates must be list of times or dates")
          end;
        if testMonotonicity times then
          Ok (mk _ curveDate times values dct ft interpMethod)
        else
          Raise (FinError
            "Times or dates are not sorted in increasing order")
    end
    end.

End Build.

(** ** Queries *)

(** The two helpers of finutils.FinHelperFunctions that every query calls
    first. *)
Class QueryHelpers `{Conventions} : Type := {
  (** [inputTime(dt, curve)]: a date or an offset, resolved to an offset. *)
  inputTime : PyVal → t → result R;
  (** [inputFrequency(f)]. *)
  inputFrequency : Z → result Z;
}.

Section Queries.
Context {conv : Conventions} {coll : Collaborators} {help : QueryHelpers}.

Definition df (self : t) (dt : PyVal) : result R :=
  t ← inputTime dt self;
  z ← interpolate t (_times self) (_values self)
        (interp_value (_interpMethod self));
  Ok z.

Definition survProb (self : t) (dt : PyVal) : result R :=
  t ← inputTime dt self;
  q ← interpolate t (_times self) (_values self)
        (interp_value (_interpMethod self));
  Ok q.

(** The first [if] binds [zeroRate]; the [if]/[else] that follows binds it
    again on both of its branches. *)
Definition zeroRate (self : t) (dt : PyVal) (compoundingFreq : Z)
    : result R :=
  t ← inputTime dt self;
  f ← inputFrequency compoundingFreq;
  df ← df self (PyFloat t);
  zeroRate ← (if decide (f = 0%Z) then
                a ← pydiv 1 df; b ← pydiv (a - 1) t; Ok (Some b)
              else Ok None);
  zeroRate ← (if decide (f = (-1)%Z) then
                Ok (- ln df / t)
              else
                a ← pydiv (-1) t; e ← pydiv a (IZR f);
                p ← pypow df e; Ok ((p - 1) * IZR f));
  Ok zeroRate.

Definition fwdRate (self : t) (date1 date2 : FinDate)
    (dayCountType : FinDayCountTypes) : result R :=
  if decide (date_lt date1 (_curveDate self)) then
    Raise (ValueError "Date1 before curve value date.")
  else if decide (date_lt date2 date1) then
    Raise (ValueError "Date2 must not be before Date1")
  else
    let yearFrac := yearFrac dayCountType date1 date2 in
    df1 ← df self (PyDate date1);
    df2 ← df self (PyDate date2);
    q ← pydiv df1 df2;
    fwd ← pydiv (q - 1) yearFrac;
    Ok fwd.

(** [fwd]: the local [dt = 0.000001] replaces the argument once the time is
    resolved; [df1 / df2] divides two Python floats, the logarithm is
    numpy's. *)
Definition fwd (self : t) (dt : PyVal) : result R :=
  t ← inputTime dt self;
  let dt := 0.000001 in
  df1 ← df self (PyFloat t);
  df2 ← df self (PyFloat (t + dt));
  q ← pydiv df1 df2;
  Ok (ln q / dt).

End Queries.

(** ** Rendering *)

(** [labelToString(label, value)] of finutils.FinHelperFunctions, called on
    two strings for the header and on two floats for a row. *)
Class Labels : Type := {
  labelToString : PyVal → PyVal → string;
}.

Section Rendering.
Context {conv : Conventions} {labels : Labels}.

(** [for i in range(0, numPoints): s += labelToString(times[i], values[i])];
    an index outside an array raises. *)
Fixpoint repr_rows (self : t) (idx : list nat) (s : string) : result string :=
  match idx with
  | [] => Ok s
  | i :: rest =>
      match _times self !! i with
      | None => Raise IndexError
      | Some t =>
          match _values self !! i with
          | None => Raise IndexError
          | Some v =>
              repr_rows self rest
                (s +:+ labelToString (PyFloat t) (PyFloat v))
          end
      end
  end.

Definition __repr__ (self : t) : result string :=
  let numPoints := length (_times self) in
  let s := labelToString (PyStr "TIMES") (PyStr "DISCOUNT FACTORS") in
  repr_rows self (seq 0 numPoints) s.

End Rendering.
(** ** The curve object on the heap, and [bump] *)

(** The object as Python holds it: the two arrays by reference. *)
Record obj `{Conventions} : Type := mkobj {
  self_curveDate : FinDate;
  self_times : ref;
  self_values : ref;
  self_dayCountType : FinDayCountTypes;
  self_frequencyType : FinFrequencyTypes;
  self_interpMethod : FinInterpMethods;
}.

(** What a method can return: an instance of one of the two curve
    classes. *)
Inductive CurveObject `{Conventions} : Type :=
| ZeroCurveObject (o : obj)
| DiscountCurveObject (o : DiscountCurve).

(** The content of an object in a heap. *)
Definition load `{Conventions} (h : heap) (self : obj) : option t :=
  times ← h !! self_times self;
  values ← h !! self_values self;
  Some (mk _ (self_curveDate self) times values (self_dayCountType self)
          (self_frequencyType self) (self_interpMethod self)).

Section Bump.
Context {conv : Conventions} {coll : Collaborators}.

(** [FinZeroCurve(...)]: lines 101 and 108 put the two lists in new
    arrays. *)
Definition new (curveDate : FinDate) (timesOrDates : list PyVal)
    (zeroRates : list R)
    (frequencyType : Selector FinFrequencyTypes)
    (dayCountType : Selector FinDayCountTypes)
    (interpMethod : FinInterpMethods) : Py obj := fun h =>
  match __init__ curveDate timesOrDates zeroRates frequencyType dayCountType
          interpMethod with
  | Raise e => Raise e
  | Ok c =>
      (times ← np_array (_times c);
       values ← np_array (_values c);
       mret (mkobj _ (_curveDate c) times values (_dayCountType c)
               (_frequencyType c) (_interpMethod c))) h
  end.

(** Body of the loop of lines 164-166. *)
Definition bump_at (bumpSize : R) (times values : ref) (i : nat) : Py unit :=
  t ← np_getitem times i;
  v ← np_getitem values i;
  np_setitem values i (v * exp (- bumpSize * t)).

Definition bump (self : obj) (bumpSize : R) : Py CurveObject :=
  times ← np_copy (self_times self);
  values ← np_copy (self_values self);
  n ← np_len (self_times self);
  for_each (seq 0 n) (bump_at bumpSize times values);;
  discCurve ← FinDiscountCurve (self_curveDate self) times values
                (self_interpMethod self);
  mret (DiscountCurveObject discCurve).

End Bump.
End FinZeroCurve.

(** ** Vocabulary of the statements *)

Section Vocabulary.
Import FinZeroCurve.
Context {conv : Conventions} {coll : Collaborators}.

(** The body chosen by the type of the first element. *)
Definition mode_body (curveDate : FinDate) (dct : FinDayCountTypes)
    (freq : Z) (first : option PyVal) : option (PyVal → R → result (R * R)) :=
  match first with
  | Some (PyFloat _) => Some (float_quote freq)
  | Some (PyDate _) => Some (date_quote curveDate dct freq)
  | _ => None
  end.

(** The discount factor the spec gives for a quote: rate [r], compounding
    [freq], exponent time [a], calendar time [t]. *)
Definition quoted_df (freq : Z) (r t a : R) : R :=
  if decide (freq = (-1)%Z) then exp (- r * t)
  else Rpower (1 + r / IZR freq) (- (IZR freq * a)).

(** The periodic formula is real valued: positive compounding base. *)
Definition real_base (freq : Z) (r : R) : Prop :=
  freq ≠ (-1)%Z → 0 < 1 + r / IZR freq.

Definition is_float (v : PyVal) : Prop :=
  match v with PyFloat _ => True | _ => False end.

Definition is_date (v : PyVal) : Prop :=
  match v with PyDate _ => True | _ => False end.

Definition is_number (v : PyVal) : Prop :=
  match v with PyFloat _ | PyInt _ => True | _ => False end.

(** Every element has the type the first one announces: numbers after a
    float, dates after a date. *)
Definition uniform (tds : list PyVal) : Prop :=
  match head tds with
  | Some (PyFloat _) => Forall is_number tds
  | Some (PyDate _) => Forall is_date tds
  | _ => True
  end.

(** The year offset that a time component resolves to. *)
Definition resolved_offset (curveDate : FinDate) (v : PyVal) : option R :=
  match v with
  | PyFloat x => Some x
  | PyInt n => Some (IZR n)
  | PyDate d => Some (IZR (date_sub d curveDate) / gDaysInYear)
  | PyStr _ => None
  end.

(** The seven named failures of the spec. *)
Inductive BuildFailure : Type :=
| EmptyInput
| LengthMismatch
| UnknownFrequency
| UnknownDayCount
| NegativeTime
| UnsupportedInputType
| NotMonotonic.

(** The condition the spec attaches to each name. *)
Definition failure_condition (curveDate : FinDate) (tds : list PyVal)
    (zr : list R) (fsel : Selector FinFrequencyTypes)
    (dsel : Selector FinDayCountTypes) (f : BuildFailure) : Prop :=
  match f with
  | EmptyInput => length tds = 0%nat
  | LengthMismatch => length tds ≠ length zr
  | UnknownFrequency => ∃ s, fsel = Foreign s
  | UnknownDayCount => ∃ s, dsel = Foreign s
  | NegativeTime =>
      ∃ td t, td ∈ tds ∧ resolved_offset curveDate td = Some t ∧ t < 0
  | UnsupportedInputType =>
      ∃ td, head tds = Some td ∧ ¬ is_float td ∧ ¬ is_date td
  | NotMonotonic =>
      ∃ ts, mapM (resolved_offset curveDate) tds = Some ts ∧
            testMonotonicity ts = false
  end.

Definition named_failure cd tds zr fsel dsel : Prop :=
  ∃ f, failure_condition cd tds zr fsel dsel f.

(** An integer read as the float of the same value. *)
Definition int_as_float (v : PyVal) : PyVal :=
  match v with
  | PyInt n => PyFloat (IZR n)
  | _ => v
  end.

(** The two errors of [fwdRate] about the order of dates. *)
Definition date_order_error {A} (m : result A) : Prop :=
  m = Raise (ValueError "Date1 before curve value date.") ∨
  m = Raise (ValueError "Date2 must not be before Date1").

(** A curve that some call of the constructor returned. *)
Definition constructed (c : t) : Prop :=
  ∃ cd tds zr fsel dsel im, __init__ cd tds zr fsel dsel im = Ok c.

(** The arrays an object refers to. *)
Definition refs_of (o : CurveObject) : list ref :=
  match o with
  | ZeroCurveObject z => [self_times z; self_values z]
  | DiscountCurveObject d =>
      [disc_times d; disc_values d]
  end.

(** The bumped value at a node. *)
Definition bumped_at (bumpSize : R) (times values : list R) (i : nat)
    : option R :=
  v ← values !! i; t ← times !! i; Some (v * exp (- bumpSize * t)).

(** A quote list of one mode: numbers behind a first float, or dates
    only. *)
Definition well_typed (tds : list PyVal) : Prop :=
  match head tds with
  | Some (PyFloat _) => Forall is_number tds
  | Some (PyDate _) => Forall is_date tds
  | _ => False
  end.

(** The two arrays of a construction, or its error. *)
Definition grid_of (m : result t) : result (list R * list R) :=
  c ← m; Ok (_times c, _values c).

End Vocabulary.

(** The text of a curve: the header, then one row per node. *)
Definition rendered {labels : FinZeroCurve.Labels} (times values : list R)
    : string :=
  fold_left
    (λ s tv, s +:+ FinZeroCurve.labelToString (PyFloat tv.1) (PyFloat tv.2))
    (zip times values)
    (FinZeroCurve.labelToString (PyStr "TIMES") (PyStr "DISCOUNT FACTORS")).

(** ** A sample market: concrete collaborators *)

Module Sample.

Inductive Frequency : Type := SIMPLE | ANNUAL | SEMI_ANNUAL | CONTINUOUS.
Inductive DayCount : Type := ACT_365 | ACT_360.
Inductive Interp : Type := FLAT_FORWARDS.

#[export] Instance conventions : Conventions := {|
  FinFrequencyTypes := Frequency;
  FinDayCountTypes := DayCount;
  FinInterpMethods := Interp;
|}.

Definition frequency (f : Frequency) : Z :=
  match f with
  | SIMPLE => 0
  | ANNUAL => 1
  | SEMI_ANNUAL => 2
  | CONTINUOUS => -1
  end.

Definition year_fraction (dc : DayCount) (d1 d2 : FinDate) : R :=
  match dc with
  | ACT_365 => IZR (date_sub d2 d1) / 365
  | ACT_360 => IZR (date_sub d2 d1) / 360
  end.

(** The value at the first grid time equal to [t]; 1 off the grid. *)
Fixpoint at_node (t : R) (times values : list R) : R :=
  match times, values with
  | s :: times', v :: values' =>
      if decide (t = s) then v else at_node t times' values'
  | _, _ => 1
  end.

#[export] Instance collaborators : Collaborators := {|
  FinFrequency := frequency;
  yearFrac := year_fraction;
  gDaysInYear := 365;
  gDaysInYear_pos := ltac:(lra);
  interp_value := fun _ => 1%Z;
  interpolate := fun t times values _ => Ok (at_node t times values);
|}.

Definition input_time (dt : PyVal) (c : FinZeroCurve.t) : result R :=
  match dt with
  | PyFloat x =>
      if decide (x < 0) then Raise (FinError "Date is before curve date")
      else Ok x
  | PyDate d =>
      let x := IZR (date_sub d (FinZeroCurve._curveDate c)) / 365 in
      if decide (x < 0) then Raise (FinError "Date is before curve date")
      else Ok x
  | PyInt _ | PyStr _ => Raise (FinError "Unknown type.")
  end.

#[export] Instance helpers : FinZeroCurve.QueryHelpers := {|
  FinZeroCurve.inputTime := input_time;
  FinZeroCurve.inputFrequency := fun f => Ok f;
|}.

Definition d0 : FinDate := mkDate 43831.

(** Times 0, 1, 2 with rates 0, 2%, 3%. *)
Definition offsets : list PyVal := [PyFloat 0; PyFloat 1; PyFloat 2].
Definition rates : list R := [0; 0.02; 0.03].

(** The curve built from the sample quotes under annual compounding. *)
Definition curve : FinZeroCurve.t :=
  FinZeroCurve.mk _ d0 [0; 1; 2]
    [1 / Rpower (1 + 0 / 1) (1 * 0);
     1 / Rpower (1 + 0.02 / 1) (1 * 1);
     1 / Rpower (1 + 0.03 / 1) (1 * 2)]
    ACT_365 ANNUAL FLAT_FORWARDS.


(** The same three quotes by date, 365 and 730 days after the curve date. *)
Definition d1 : FinDate := mkDate 44196.
Definition d2 : FinDate := mkDate 44561.
Definition dates : list PyVal := [PyDate d0; PyDate d1; PyDate d2].

(** The curve built from the dated quotes, semi-annual, ACT/360. *)
Definition dated_curve : FinZeroCurve.t :=
  FinZeroCurve.mk _ d0
    [IZR (date_sub d0 d0) / 365; IZR (date_sub d1 d0) / 365;
     IZR (date_sub d2 d0) / 365]
    [1 / Rpower (1 + 0 / 2) (2 * year_fraction ACT_360 d0 d0);
     1 / Rpower (1 + 0.02 / 2) (2 * year_fraction ACT_360 d0 d1);
     1 / Rpower (1 + 0.03 / 2) (2 * year_fraction ACT_360 d0 d2)]
    ACT_360 SEMI_ANNUAL FLAT_FORWARDS.

(** The first curve as an object in a heap of two arrays. *)
Definition self0 : FinZeroCurve.obj :=
  FinZeroCurve.mkobj _ d0 0%nat 1%nat ACT_365 ANNUAL FLAT_FORWARDS.
Definition heap0 : heap :=
  <[1%nat := FinZeroCurve._values curve]>
    (<[0%nat := FinZeroCurve._times curve]> ∅).

(** A float followed by a string. *)
Definition mixed : list PyVal := [PyFloat 0; PyStr "1Y"].

(** A second market: the interpolation of a flat 5% continuous curve. *)
Definition flat_collaborators : Collaborators := {|
  FinFrequency := frequency;
  yearFrac := year_fraction;
  gDaysInYear := 365;
  gDaysInYear_pos := ltac:(lra);
  interp_value := fun _ => 1%Z;
  interpolate := fun t _ _ _ => Ok (exp (- (0.05) * t));
|}.

(** Labels: a string as it is, any other value as a mark. *)
Definition shown (v : PyVal) : string :=
  match v with
  | PyStr s => s
  | PyFloat _ | PyInt _ | PyDate _ => "#"
  end.

#[export] Instance labels : FinZeroCurve.Labels := {|
  FinZeroCurve.labelToString := fun a b => shown a +:+ ": " +:+ shown b;
|}.

(** Quotes with a negative time behind a string, and unsorted quotes. *)
Definition broken : list PyVal := [PyFloat 0; PyStr "1Y"; PyFloat (-1)].
Definition sinking : list PyVal := [PyFloat 1; PyFloat (-1)].

End Sample.

(** * Properties *)

(** ** Results *)

Lemma bind_Ok {A B} (m : result A) (k : A → result B) (b : B) :
  m ≫= k = Ok b → ∃ a, m = Ok a ∧ k a = Ok b.
Proof. destruct m as [a|e]; simpl; [eauto | discriminate]. Qed.

Lemma bind_Raise {A B} (m : result A) (k : A → result B) (e : PyExc) :
  m ≫= k = Raise e → m = Raise e ∨ ∃ a, m = Ok a ∧ k a = Raise e.
Proof. destruct m as [a|e']; simpl; [eauto | intros [= ->]; auto]. Qed.

Lemma raises_not_returns {A} (m : result A) : raises m ↔ ¬ returns m.
Proof.
  unfold raises, returns. destruct m as [a|e]; split.
  - intros [e He]. discriminate.
  - intros Hn. exfalso. apply Hn. eauto.
  - intros _ [a Ha]. discriminate.
  - eauto.
Qed.

Lemma pydiv_Ok x y : y ≠ 0 → pydiv x y = Ok (x / y).
Proof. intros Hy. unfold pydiv. destruct (decide (y = 0)); [done | reflexivity]. Qed.

Lemma pydiv_inv x y q : pydiv x y = Ok q → y ≠ 0 ∧ q = x / y.
Proof.
  unfold pydiv. destruct (decide (y = 0)); [discriminate |].
  intros [= <-]. auto.
Qed.

(** ** The construction loop *)

Section LoopFacts.
Import FinZeroCurve.
Variable body : PyVal → R → result (R * R).

Lemma quotes_loop_lookup tds : ∀ zr times values,
  quotes_loop body tds zr = Ok (times, values) →
  ∀ i td r, tds !! i = Some td → zr !! i = Some r →
  ∃ t df, body td r = Ok (t, df) ∧ times !! i = Some t ∧ values !! i = Some df.
Proof.
  induction tds as [|td0 tds IH]; intros zr times values Hrun i td r Htd Hr.
  - discriminate.
  - destruct zr as [|r0 rs]; [discriminate |].
    simpl in Hrun.
    apply bind_Ok in Hrun as ([t0 df0] & Hb & Hrun).
    apply bind_Ok in Hrun as ([ts vs] & Hrest & Hrun).
    injection Hrun as <- <-.
    destruct i as [|i]; simpl in *.
    + injection Htd as <-. injection Hr as <-. eauto.
    + eapply IH; eauto.
Qed.

Lemma quotes_loop_length tds : ∀ zr times values,
  quotes_loop body tds zr = Ok (times, values) →
  length times = length tds ∧ length values = length tds.
Proof.
  induction tds as [|td0 tds IH]; intros zr times values Hrun.
  - injection Hrun as <- <-. auto.
  - destruct zr as [|r0 rs]; [discriminate |].
    simpl in Hrun.
    apply bind_Ok in Hrun as ([t0 df0] & Hb & Hrun).
    apply bind_Ok in Hrun as ([ts vs] & Hrest & Hrun).
    injection Hrun as <- <-.
    destruct (IH _ _ _ Hrest). simpl. auto.
Qed.

(** The loop runs to its end when every body does. *)
Lemma quotes_loop_returns tds : ∀ zr,
  length tds = length zr →
  (∀ i td r, tds !! i = Some td → zr !! i = Some r → returns (body td r)) →
  returns (quotes_loop body tds zr).
Proof.
  induction tds as [|td0 tds IH]; intros zr Hlen Hall.
  - exists ([], []). reflexivity.
  - destruct zr as [|r0 rs]; [discriminate |].
    destruct (Hall 0%nat td0 r0 eq_refl eq_refl) as [[t0 df0] Hb].
    destruct (IH rs) as [[ts vs] Hrest].
    + simpl in Hlen. lia.
    + intros i td r Htd Hr. apply (Hall (S i) td r); assumption.
    + exists (t0 :: ts, df0 :: vs). simpl. rewrite Hb. simpl.
      rewrite Hrest. reflexivity.
Qed.

(** The times the loop stores are the first components of its bodies. *)
Lemma quotes_loop_times (off : PyVal → option R) tds : ∀ zr times values,
  (∀ td r t df, body td r = Ok (t, df) → off td = Some t) →
  quotes_loop body tds zr = Ok (times, values) →
  mapM off tds = Some times.
Proof.
  induction tds as [|td0 tds IH]; intros zr times values Hoff Hrun.
  - injection Hrun as <- <-. reflexivity.
  - destruct zr as [|r0 rs]; [discriminate |].
    simpl in Hrun.
    apply bind_Ok in Hrun as ([t0 df0] & Hb & Hrun).
    apply bind_Ok in Hrun as ([ts vs] & Hrest & Hrun).
    injection Hrun as <- <-.
    simpl. rewrite (Hoff _ _ _ _ Hb). simpl.
    rewrite (IH _ _ _ Hoff Hrest). reflexivity.
Qed.

End LoopFacts.

(** ** Construction *)

Section BuildFacts.
Import FinZeroCurve.
Context {conv : Conventions} {coll : Collaborators}.

(** What a successful construction went through. *)
Lemma init_Ok cd tds zr fsel dsel im c :
  __init__ cd tds zr fsel dsel im = Ok c →
  ∃ ft dct body,
    fsel = Member ft ∧ dsel = Member dct ∧
    tds ≠ [] ∧ length tds = length zr ∧
    mode_body cd dct (FinFrequency ft) (head tds) = Some body ∧
    quotes_loop body tds zr = Ok (_times c, _values c) ∧
    testMonotonicity (_times c) = true ∧
    c = mk _ cd (_times c) (_values c) dct ft im.
Proof.
  unfold __init__. intros Hrun.
  destruct (decide (length tds = 0%nat)) as [|Hne]; [discriminate |].
  destruct (decide (length tds ≠ length zr)) as [|Hlen]; [discriminate |].
  destruct fsel as [ft|]; [| discriminate].
  destruct dsel as [dct|]; [| discriminate].
  apply bind_Ok in Hrun as ([times values] & Hloop & Hrun).
  destruct (testMonotonicity times) eqn:Hmono; [| discriminate].
  injection Hrun as <-. simpl.
  assert (Hbody : ∃ body,
    mode_body cd dct (FinFrequency ft) (head tds) = Some body ∧
    quotes_loop body tds zr = Ok (times, values)).
  { destruct (head tds) as [[x|n|d|s]|]; simpl; try discriminate; eauto. }
  destruct Hbody as (body & Hmode & Hbody).
  exists ft, dct, body. repeat split; try assumption.
  - intros ->. apply Hne. reflexivity.
  - apply dec_stable in Hlen. exact Hlen.
Qed.

Lemma float_quote_Ok freq td r t df :
  float_quote freq td r = Ok (t, df) →
  as_number td = Ok t ∧ 0 <= t ∧
  (if decide (freq = (-1)%Z) then df = exp (- r * t)
   else IZR freq ≠ 0 ∧ df = 1 / Rpower (1 + r / IZR freq) (IZR freq * t)).
Proof.
  unfold float_quote. intros Hrun.
  apply bind_Ok in Hrun as (t' & Hnum & Hrun).
  destruct (decide (t' < 0)) as [|Hge]; [discriminate |].
  apply bind_Ok in Hrun as (df' & Hdf & Hrun).
  injection Hrun as <- <-.
  split; [assumption |]. split; [lra |].
  destruct (decide (freq = (-1)%Z)).
  - injection Hdf as <-. reflexivity.
  - apply bind_Ok in Hdf as (q & Hq & Hdf).
    apply pydiv_inv in Hq as [Hnz ->]. injection Hdf as <-. auto.
Qed.

Lemma date_quote_Ok cd dct freq td r t df :
  date_quote cd dct freq td r = Ok (t, df) →
  ∃ d, td = PyDate d ∧ t = IZR (date_sub d cd) / gDaysInYear ∧ 0 <= t ∧
  (if decide (freq = (-1)%Z) then df = exp (- r * t)
   else IZR freq ≠ 0 ∧
        df = 1 / Rpower (1 + r / IZR freq) (IZR freq * yearFrac dct cd d)).
Proof.
  unfold date_quote. intros Hrun.
  apply bind_Ok in Hrun as ([d days] & Hd & Hrun).
  destruct td as [x|n|d'|s]; simpl in Hd; try discriminate.
  injection Hd as <- <-.
  destruct (decide (IZR (date_sub d' cd) / gDaysInYear < 0)) as [|Hge];
    [discriminate |].
  apply bind_Ok in Hrun as (df' & Hdf & Hrun).
  injection Hrun as <- <-.
  exists d'. split; [reflexivity |]. split; [reflexivity |]. split; [lra |].
  destruct (decide (freq = (-1)%Z)).
  - injection Hdf as <-. reflexivity.
  - apply bind_Ok in Hdf as (q & Hq & Hdf).
    apply pydiv_inv in Hq as [Hnz ->]. injection Hdf as <-. auto.
Qed.

(** [1.0 / np.power(b, e)] is [b] to the power [-e]. *)
Lemma inv_power b e : 1 / Rpower b e = Rpower b (- e).
Proof. rewrite Rpower_Ropp. lra. Qed.

End BuildFacts.

(** Decide the guards of a run on given numbers. *)
Ltac days :=
  try unfold date_lt in *; try unfold date_sub in *; simpl in *;
  repeat match goal with
  | H : context [IZR (?a - ?b)%Z] |- _ =>
      let z := eval vm_compute in (a - b)%Z in
      change (a - b)%Z with z in H
  | |- context [IZR (?a - ?b)%Z] =>
      let z := eval vm_compute in (a - b)%Z in
      change (a - b)%Z with z
  end.
Ltac branch :=
  match goal with
  | |- context [decide ?P] =>
      destruct (decide P) as [?|?];
      try (exfalso; days; first [lra | lia | congruence | tauto])
  end.
Ltac run :=
  repeat first
    [ progress simpl
    | progress unfold FinZeroCurve.float_quote, FinZeroCurve.date_quote,
        FinZeroCurve.as_number, FinZeroCurve.days_from, pydiv, pypow
    | branch ].

Section BuildTheorems.
Import FinZeroCurve.
Context {conv : Conventions} {coll : Collaborators}.

(** C5.  Float-offset mode: for a quote [(t, r)] at index [i] of a
    constructed curve, [t] is not negative, the stored time is [t] as given,
    and the stored discount factor is [exp (-r t)] under continuous
    compounding and [(1 + r/freq)^(-freq t)] otherwise (for a rate whose
    compounding base is positive). *)
Theorem float_mode_stores_quotes cd tds zr ft dct im c x0 i t r :
  __init__ cd tds zr (Member ft) (Member dct) im = Ok c →
  head tds = Some (PyFloat x0) →
  tds !! i = Some (PyFloat t) → zr !! i = Some r →
  real_base (FinFrequency ft) r →
  0 <= t ∧
  _times c !! i = Some t ∧
  _values c !! i = Some (quoted_df (FinFrequency ft) r t t).
Proof.
  intros Hrun Hhead Htd Hr _.
  apply init_Ok in Hrun
    as (ft' & dct' & body & [= <-] & [= <-] & _ & _ & Hmode & Hloop & _).
  rewrite Hhead in Hmode. injection Hmode as <-.
  destruct (quotes_loop_lookup _ _ _ _ _ Hloop i _ _ Htd Hr)
    as (t' & df & Hb & Ht & Hdf).
  apply float_quote_Ok in Hb as (Hnum & Hpos & Hval).
  injection Hnum as <-.
  split; [assumption |]. split; [assumption |].
  rewrite Hdf. f_equal. unfold quoted_df.
  destruct (decide (FinFrequency ft = (-1)%Z)); [assumption |].
  destruct Hval as [_ ->]. apply inv_power.
Qed.

(** C3.  Date mode: for a quote [(date, r)] at index [i] of a constructed
    curve, the stored time is the calendar offset
    [(date - curveDate) / gDaysInYear], and the stored discount factor is
    [exp (-r t)] under continuous compounding and
    [(1 + r/freq)^(-freq alpha)] otherwise, [alpha] being the day-count year
    fraction from the curve date to [date] (for a rate whose compounding
    base is positive). *)
Theorem date_mode_stores_quotes cd tds zr ft dct im c d0 i d r :
  __init__ cd tds zr (Member ft) (Member dct) im = Ok c →
  head tds = Some (PyDate d0) →
  tds !! i = Some (PyDate d) → zr !! i = Some r →
  real_base (FinFrequency ft) r →
  let t := IZR (date_sub d cd) / gDaysInYear in
  let alpha := yearFrac dct cd d in
  _times c !! i = Some t ∧
  _values c !! i = Some (quoted_df (FinFrequency ft) r t alpha).
Proof.
  intros Hrun Hhead Htd Hr _ t alpha.
  apply init_Ok in Hrun
    as (ft' & dct' & body & [= <-] & [= <-] & _ & _ & Hmode & Hloop & _).
  rewrite Hhead in Hmode. injection Hmode as <-.
  destruct (quotes_loop_lookup _ _ _ _ _ Hloop i _ _ Htd Hr)
    as (t' & df & Hb & Ht & Hdf).
  apply date_quote_Ok in Hb as (d' & [= <-] & -> & Hpos & Hval).
  split; [assumption |].
  rewrite Hdf. f_equal. unfold quoted_df.
  destruct (decide (FinFrequency ft = (-1)%Z)); [assumption |].
  destruct Hval as [_ ->]. apply inv_power.
Qed.

End BuildTheorems.

(** ** The conditions under which construction fails *)

Section BuildFailures.
Import FinZeroCurve.
Context {conv : Conventions} {coll : Collaborators}.

Lemma quotes_loop_Raise body tds : ∀ zr e,
  length tds = length zr →
  quotes_loop body tds zr = Raise e →
  ∃ i td r, tds !! i = Some td ∧ zr !! i = Some r ∧ body td r = Raise e.
Proof.
  induction tds as [|td0 tds IH]; intros zr e Hlen Hrun.
  - discriminate.
  - destruct zr as [|r0 rs]; [discriminate |].
    simpl in Hrun.
    apply bind_Raise in Hrun as [Hb | ([t0 df0] & Hb & Hrun)].
    + exists 0%nat, td0, r0. auto.
    + apply bind_Raise in Hrun as [Hrest | ([ts vs] & _ & Hrun)];
        [| discriminate].
      destruct (IH rs e) as (i & td & r & Htd & Hr & Hfail);
        [simpl in Hlen; lia | assumption |].
      exists (S i), td, r. auto.
Qed.

Lemma mode_body_Ok cd dct freq first body td r t df :
  mode_body cd dct freq first = Some body →
  body td r = Ok (t, df) →
  resolved_offset cd td = Some t ∧ 0 <= t.
Proof.
  intros Hmode Hb.
  destruct first as [[x|n|d|s]|]; simpl in Hmode; try discriminate;
    injection Hmode as <-.
  - apply float_quote_Ok in Hb as (Hnum & Hpos & _).
    split; [| assumption].
    destruct td; simpl in *; try discriminate; congruence.
  - apply date_quote_Ok in Hb as (d' & -> & -> & Hpos & _). auto.
Qed.

Lemma float_quote_Raise cd freq td r e :
  is_number td → freq ≠ 0%Z →
  float_quote freq td r = Raise e →
  ∃ t, resolved_offset cd td = Some t ∧ t < 0.
Proof.
  intros Hnum Hfreq Hrun. unfold float_quote in Hrun.
  assert (Hoff : ∃ t, as_number td = Ok t ∧ resolved_offset cd td = Some t).
  { destruct td; simpl in *; try tauto; eauto. }
  destruct Hoff as (t & Ht & Hoff). rewrite Ht in Hrun. simpl in Hrun.
  destruct (decide (t < 0)); [eauto |]. exfalso.
  destruct (decide (freq = (-1)%Z)); [discriminate |].
  rewrite pydiv_Ok in Hrun; [discriminate |].
  intros H0. apply eq_IZR in H0. contradiction.
Qed.

Lemma date_quote_Raise cd dct freq td r e :
  is_date td → freq ≠ 0%Z →
  date_quote cd dct freq td r = Raise e →
  ∃ t, resolved_offset cd td = Some t ∧ t < 0.
Proof.
  intros Hdate Hfreq Hrun. unfold date_quote in Hrun.
  destruct td as [x|n|d|s]; simpl in Hdate; try tauto.
  simpl in Hrun.
  destruct (decide (IZR (date_sub d cd) / gDaysInYear < 0)); [simpl; eauto |].
  exfalso.
  destruct (decide (freq = (-1)%Z)); [discriminate |].
  rewrite pydiv_Ok in Hrun; [discriminate |].
  intros H0. apply eq_IZR in H0. contradiction.
Qed.

(** Wherever one of the seven conditions holds, construction raises. *)
Lemma named_failure_raises cd tds zr fsel dsel im :
  named_failure cd tds zr fsel dsel →
  raises (__init__ cd tds zr fsel dsel im).
Proof.
  intros [f Hf]. apply raises_not_returns. intros [c Hrun].
  apply init_Ok in Hrun
    as (ft & dct & body & -> & -> & Hne & Hlen & Hmode & Hloop & Hmono & _).
  destruct f; simpl in Hf.
  - destruct tds; [congruence | discriminate].
  - contradiction.
  - destruct Hf as [s Hs]. discriminate.
  - destruct Hf as [s Hs]. discriminate.
  - destruct Hf as (td & t & Hin & Hoff & Hneg).
    apply list_elem_of_lookup in Hin as [i Htd].
    destruct (lookup_lt_is_Some_2 zr i) as [r Hr].
    { rewrite <- Hlen. eapply lookup_lt_Some. eassumption. }
    destruct (quotes_loop_lookup _ _ _ _ _ Hloop i _ _ Htd Hr)
      as (t' & df & Hb & _).
    destruct (mode_body_Ok _ _ _ _ _ _ _ _ _ Hmode Hb) as [Hoff' Hpos].
    rewrite Hoff in Hoff'. injection Hoff' as <-. lra.
  - destruct Hf as (td & Hhd & Hnf & Hnd). rewrite Hhd in Hmode.
    destruct td; simpl in *; try discriminate; tauto.
  - destruct Hf as (ts & Hts & Hbad).
    assert (Hts' : mapM (resolved_offset cd) tds = Some (_times c)).
    { apply (quotes_loop_times body (resolved_offset cd) tds zr _ (_values c));
        [| assumption].
      intros td r t df Hb.
      apply (mode_body_Ok _ _ _ _ _ _ _ _ _ Hmode Hb). }
    rewrite Hts in Hts'. injection Hts' as ->. congruence.
Qed.

(** On a uniform quote list and a nonzero number of periods, construction
    raises only where one of the seven conditions holds. *)
Lemma raises_named_failure cd tds zr fsel dsel im :
  uniform tds →
  (∀ ft, fsel = Member ft → FinFrequency ft ≠ 0%Z) →
  raises (__init__ cd tds zr fsel dsel im) →
  named_failure cd tds zr fsel dsel.
Proof.
  intros Huni Hfreq [e Hrun]. unfold __init__ in Hrun.
  destruct (decide (length tds = 0%nat)) as [Hz|Hnz];
    [exists EmptyInput; assumption |].
  destruct (decide (length tds ≠ length zr)) as [Hne|Hlen];
    [exists LengthMismatch; assumption |].
  apply dec_stable in Hlen.
  destruct fsel as [ft|s]; [| exists UnknownFrequency; simpl; eauto].
  destruct dsel as [dct|s]; [| exists UnknownDayCount; simpl; eauto].
  specialize (Hfreq ft eq_refl).
  assert (Hcases :
    (∃ td, head tds = Some td ∧ ¬ is_float td ∧ ¬ is_date td) ∨
    ∃ body, mode_body cd dct (FinFrequency ft) (head tds) = Some body ∧
      (∀ td r e', td ∈ tds → body td r = Raise e' →
         ∃ t, resolved_offset cd td = Some t ∧ t < 0) ∧
      (quotes_loop body tds zr ≫= λ '(times, values),
         if testMonotonicity times
         then Ok (mk _ cd times values dct ft im)
         else Raise (FinError
                "Times or dates are not sorted in increasing order"))
      = Raise e).
  { unfold uniform in Huni.
    destruct (head tds) as [[x|n|d|s]|] eqn:Hhd.
    - right. eexists. split; [reflexivity |]. split; [| exact Hrun].
      intros td r e' Hin Hb.
      rewrite Forall_forall in Huni.
      eapply float_quote_Raise; eauto.
    - left. eexists. split; [reflexivity |]. simpl. tauto.
    - right. eexists. split; [reflexivity |]. split; [| exact Hrun].
      intros td r e' Hin Hb.
      rewrite Forall_forall in Huni.
      eapply date_quote_Raise; eauto.
    - left. eexists. split; [reflexivity |]. simpl. tauto.
    - destruct tds; [simpl in Hnz; congruence | discriminate]. }
  destruct Hcases as [Hbad | (body & Hmode & Hneg & Hrun')];
    [exists UnsupportedInputType; assumption |].
  apply bind_Raise in Hrun' as [Hloop | ([times values] & Hloop & Hcheck)].
  - apply quotes_loop_Raise in Hloop as (i & td & r & Htd & Hr & Hb);
      [| assumption].
    destruct (Hneg td r e) as (t & Hoff & Hlt);
      [apply list_elem_of_lookup; eauto | assumption |].
    exists NegativeTime. simpl. exists td, t.
    split; [apply list_elem_of_lookup; eauto | auto].
  - destruct (testMonotonicity times) eqn:Hmono; [discriminate |].
    exists NotMonotonic. simpl. exists times. split; [| assumption].
    apply (quotes_loop_times body (resolved_offset cd) tds zr times values);
      [| assumption].
    intros td r t df Hb. apply (mode_body_Ok _ _ _ _ _ _ _ _ _ Hmode Hb).
Qed.

(** C4, amended.  Construction raises, and returns no curve, wherever one of
    the seven named conditions holds; on a quote list whose elements all
    have the type of the first and with a nonzero number of compounding
    periods, it raises nowhere else. *)
Theorem construction_failures cd tds zr fsel dsel im :
  (named_failure cd tds zr fsel dsel →
   raises (__init__ cd tds zr fsel dsel im)) ∧
  (uniform tds →
   (∀ ft, fsel = Member ft → FinFrequency ft ≠ 0%Z) →
   (raises (__init__ cd tds zr fsel dsel im) ↔
    named_failure cd tds zr fsel dsel)).
Proof.
  split; [apply named_failure_raises |].
  intros Huni Hfreq. split.
  - apply raises_named_failure; assumption.
  - apply named_failure_raises.
Qed.

End BuildFailures.

(** ** Mode dispatch *)

Section ModeDispatch.
Import FinZeroCurve.
Context {conv : Conventions} {coll : Collaborators}.

Lemma float_quote_int_as_float freq td r :
  float_quote freq (int_as_float td) r = float_quote freq td r.
Proof. destruct td; reflexivity. Qed.

Lemma quotes_loop_int_as_float freq tds : ∀ zr,
  quotes_loop (float_quote freq) (map int_as_float tds) zr
  = quotes_loop (float_quote freq) tds zr.
Proof.
  induction tds as [|td tds IH]; intros zr; [reflexivity |].
  destruct zr as [|r rs]; [reflexivity |].
  simpl. rewrite float_quote_int_as_float, IH. reflexivity.
Qed.

(** C10.  The mode is chosen by the type of the first element alone.  Past
    the four validations, a first element that is neither a float nor a
    date -- the integer 1, say -- is refused with the unsupported-input
    error.  After a float, the other elements are not inspected: an integer
    there is taken as the offset of the same value. *)
Theorem first_element_selects_mode cd first rest zr ft dct im :
  length (first :: rest) = length zr →
  (¬ is_float first → ¬ is_date first →
   __init__ cd (first :: rest) zr (Member ft) (Member dct) im
   = Raise (FinError "Input timeOrDates must be list of times or dates")) ∧
  (is_float first →
   __init__ cd (first :: map int_as_float rest) zr (Member ft) (Member dct) im
   = __init__ cd (first :: rest) zr (Member ft) (Member dct) im).
Proof.
  intros Hlen. split.
  - intros Hnf Hnd. unfold __init__.
    destruct (decide (length (first :: rest) = 0%nat)); [discriminate |].
    destruct (decide (length (first :: rest) ≠ length zr)); [contradiction |].
    destruct first; simpl in *; tauto.
  - intros Hf. destruct first as [x| | |]; simpl in Hf; try tauto.
    unfold __init__.
    change (PyFloat x :: map int_as_float rest)
      with (map int_as_float (PyFloat x :: rest)).
    rewrite length_map, quotes_loop_int_as_float. reflexivity.
Qed.

End ModeDispatch.

(** ** Queries *)

Section QueryTheorems.
Import FinZeroCurve.
Context {conv : Conventions} {coll : Collaborators} {help : QueryHelpers}.

(** C9.  [survProb] and [df] are the same function of the curve and the
    query input. *)
Theorem survProb_is_df (self : t) (dt : PyVal) :
  survProb self dt = df self dt.
Proof. reflexivity. Qed.

(** C1 on the code.  With a compounding frequency that resolves to 0 the
    call never returns a rate: past the simple-interest assignment the run
    enters the [else] of [if f == -1] and divides by [f].  Where the time
    resolves and the discount factor is found, it raises
    [ZeroDivisionError]. *)
Theorem zeroRate_simple_interest_raises (self : t) (dt : PyVal) (cf : Z) :
  inputFrequency cf = Ok 0%Z →
  raises (zeroRate self dt cf) ∧
  ∀ t v, inputTime dt self = Ok t → df self (PyFloat t) = Ok v →
    zeroRate self dt cf = Raise ZeroDivisionError.
Proof.
  intros Hf.
  assert (Hrun : ∀ t v, inputTime dt self = Ok t →
            df self (PyFloat t) = Ok v →
            zeroRate self dt cf = Raise ZeroDivisionError).
  { intros t v Ht Hv. unfold zeroRate. rewrite Ht. simpl.
    rewrite Hf. simpl. rewrite Hv. simpl.
    destruct (decide (0 = 0)%Z) as [_|]; [| done].
    destruct (decide (0 = -1)%Z) as [|_]; [done |].
    unfold pydiv.
    destruct (decide (v = 0)); [reflexivity |]. simpl.
    destruct (decide (t = 0)); [reflexivity |]. simpl.
    destruct (decide (0 = 0)) as [_|]; [reflexivity | done]. }
  split; [| exact Hrun].
  destruct (inputTime dt self) as [t|e] eqn:Ht.
  - destruct (df self (PyFloat t)) as [v|e] eqn:Hv.
    + exists ZeroDivisionError. eauto.
    + exists e. unfold zeroRate. rewrite Ht. simpl. rewrite Hf. simpl.
      rewrite Hv. reflexivity.
  - exists e. unfold zeroRate. rewrite Ht. reflexivity.
Qed.

(** C7.  [fwdRate] raises a date-order error whenever [date1] is before the
    curve date or [date2] is before [date1]; it raises one only then, as
    long as the two discount-factor look-ups, at [date1] and at [date2],
    raise no error of that very kind themselves; and with dates in order,
    discount factors [df1] and [df2 <> 0] found and a nonzero year fraction,
    it returns [(df1 / df2 - 1) / yearFrac date1 date2]. *)
Theorem fwdRate_date_order (self : t) (date1 date2 : FinDate)
    (dct : FinDayCountTypes) :
  (date_lt date1 (_curveDate self) ∨ date_lt date2 date1 →
   date_order_error (fwdRate self date1 date2 dct)) ∧
  (¬ date_order_error (df self (PyDate date1)) →
   ¬ date_order_error (df self (PyDate date2)) →
   (date_order_error (fwdRate self date1 date2 dct) ↔
    date_lt date1 (_curveDate self) ∨ date_lt date2 date1)) ∧
  (¬ date_lt date1 (_curveDate self) → ¬ date_lt date2 date1 →
   ∀ df1 df2, df self (PyDate date1) = Ok df1 →
     df self (PyDate date2) = Ok df2 →
     df2 ≠ 0 → yearFrac dct date1 date2 ≠ 0 →
     fwdRate self date1 date2 dct
     = Ok ((df1 / df2 - 1) / yearFrac dct date1 date2)).
Proof.
  assert (Hif : date_lt date1 (_curveDate self) ∨ date_lt date2 date1 →
                date_order_error (fwdRate self date1 date2 dct)).
  { unfold fwdRate, date_order_error. intros Hcond.
    destruct (decide (date_lt date1 (_curveDate self))) as [H1|H1];
      [auto |].
    destruct (decide (date_lt date2 date1)) as [H2|H2]; [auto | tauto]. }
  split; [exact Hif |]. split.
  - intros Hd1 Hd2. split; [| exact Hif].
    unfold fwdRate. intros Herr.
    destruct (decide (date_lt date1 (_curveDate self))) as [H1|H1];
      [auto |].
    destruct (decide (date_lt date2 date1)) as [H2|H2]; [auto |].
    exfalso.
    destruct (df self (PyDate date1)) as [v1|e1] eqn:E1; simpl in Herr;
      [| apply Hd1; exact Herr].
    destruct (df self (PyDate date2)) as [v2|e2] eqn:E2; simpl in Herr;
      [| apply Hd2; exact Herr].
    unfold date_order_error, pydiv in Herr.
    destruct (decide (v2 = 0)); simpl in Herr;
      [destruct Herr; discriminate |].
    destruct (decide (yearFrac dct date1 date2 = 0)); simpl in Herr;
      destruct Herr; discriminate.
  - intros H1 H2 df1 df2 E1 E2 Hnz Hyf. unfold fwdRate.
    destruct (decide (date_lt date1 (_curveDate self))); [contradiction |].
    destruct (decide (date_lt date2 date1)); [contradiction |].
    rewrite E1, E2. simpl.
    rewrite (pydiv_Ok _ _ Hnz). simpl. rewrite (pydiv_Ok _ _ Hyf).
    reflexivity.
Qed.




End QueryTheorems.

(** ** Running heap computations *)

Lemma run_bind {A B} (m : Py A) (k : A → Py B) (h h' : heap) (a : A) :
  m h = Ok (a, h') → (m ≫= k) h = k a h'.
Proof. unfold mbind, Py_bind. intros ->. reflexivity. Qed.

Lemma np_array_run (xs : list R) (h : heap) :
  np_array xs h = Ok (fresh (dom h), <[fresh (dom h) := xs]> h).
Proof. reflexivity. Qed.

Lemma np_copy_run (a : ref) (xs : list R) (h : heap) :
  h !! a = Some xs →
  np_copy a h = Ok (fresh (dom h), <[fresh (dom h) := xs]> h).
Proof.
  intros Ha. unfold np_copy. erewrite run_bind; [apply np_array_run |].
  unfold np_read. rewrite Ha. reflexivity.
Qed.

Lemma np_len_run (a : ref) (xs : list R) (h : heap) :
  h !! a = Some xs → np_len a h = Ok (length xs, h).
Proof.
  intros Ha. unfold np_len. erewrite run_bind; [reflexivity |].
  unfold np_read. rewrite Ha. reflexivity.
Qed.

Lemma np_getitem_run (a : ref) (i : nat) (xs : list R) (x : R) (h : heap) :
  h !! a = Some xs → xs !! i = Some x → np_getitem a i h = Ok (x, h).
Proof.
  intros Ha Hi. unfold np_getitem.
  erewrite run_bind; [| unfold np_read; rewrite Ha; reflexivity].
  rewrite Hi. reflexivity.
Qed.

Lemma np_setitem_run (a : ref) (i : nat) (xs : list R) (x : R) (h : heap) :
  h !! a = Some xs → (i < length xs)%nat →
  np_setitem a i x h = Ok (tt, <[a := <[i := x]> xs]> h).
Proof.
  intros Ha Hi. unfold np_setitem. rewrite Ha.
  destruct (decide (i < length xs)%nat); [reflexivity | contradiction].
Qed.

(** ** bump *)

Section BumpFacts.
Import FinZeroCurve.
Context {conv : Conventions} {coll : Collaborators}.

Lemma constructed_lengths (c : t) :
  constructed c → length (_times c) = length (_values c).
Proof.
  intros (cd & tds & zr & fsel & dsel & im & Hrun).
  apply init_Ok in Hrun
    as (ft & dct & body & _ & _ & _ & _ & _ & Hloop & _).
  apply quotes_loop_length in Hloop as [-> ->]. reflexivity.
Qed.

(** The loop of [bump] over the indices [k, k+1, ..., k+m-1]. *)
Lemma for_each_bump (b : R) (a vref : ref) (ts : list R) : ∀ m k h vs,
  a ≠ vref → h !! a = Some ts → h !! vref = Some vs →
  (k + m ≤ length ts)%nat → (k + m ≤ length vs)%nat →
  ∃ vs', for_each (seq k m) (bump_at b a vref) h
         = Ok (tt, <[vref := vs']> h) ∧
    length vs' = length vs ∧
    ∀ i, vs' !! i = if decide (k ≤ i < k + m)%nat
                    then bumped_at b ts vs i else vs !! i.
Proof.
  induction m as [|m IH]; intros k h vs Hne Ha Hv Hts Hvs.
  - exists vs. split; [| split; [reflexivity |]].
    + simpl. rewrite insert_id by assumption. reflexivity.
    + intros i. destruct (decide (k ≤ i < k + 0)%nat); [lia | reflexivity].
  - destruct (lookup_lt_is_Some_2 ts k) as [t Ht]; [lia |].
    destruct (lookup_lt_is_Some_2 vs k) as [v Hvk]; [lia |].
    set (x := v * exp (- b * t)).
    set (vs1 := <[k := x]> vs).
    set (h1 := <[vref := vs1]> h).
    assert (Hstep : bump_at b a vref k h = Ok (tt, h1)).
    { unfold bump_at.
      erewrite run_bind; [| eapply np_getitem_run; eassumption].
      erewrite run_bind; [| eapply np_getitem_run; eassumption].
      apply np_setitem_run; [assumption | lia]. }
    destruct (IH (S k) h1 vs1) as (vs' & Hrun & Hlen & Hpt).
    + assumption.
    + unfold h1. rewrite lookup_insert_ne by congruence. assumption.
    + unfold h1. apply lookup_insert_eq.
    + lia.
    + unfold vs1. rewrite length_insert. lia.
    + exists vs'. split; [| split].
      * simpl. erewrite run_bind; [| exact Hstep].
        rewrite Hrun. unfold h1. rewrite insert_insert_eq. reflexivity.
      * rewrite Hlen. unfold vs1. apply length_insert.
      * intros i. rewrite Hpt. unfold vs1, bumped_at.
        destruct (decide (i = k)) as [->|Hik].
        -- destruct (decide (S k ≤ k < S k + m)%nat); [lia |].
           destruct (decide (k ≤ k < k + S m)%nat); [| lia].
           rewrite list_lookup_insert_eq by lia.
           rewrite Hvk, Ht. reflexivity.
        -- rewrite list_lookup_insert_ne by congruence.
           destruct (decide (S k ≤ i < S k + m)%nat);
             destruct (decide (k ≤ i < k + S m)%nat);
             try lia; reflexivity.
Qed.

(** The run of [bump] on an object whose two arrays have one length. *)
Lemma bump_run (self : obj) (bumpSize : R) (h : heap) (ts vs : list R) :
  h !! self_times self = Some ts → h !! self_values self = Some vs →
  length ts = length vs →
  ∃ d vs',
    bump self bumpSize h
    = Ok (DiscountCurveObject d,
          <[disc_values d := vs']>
            (<[disc_times d := ts]> h)) ∧
    disc_curveDate d = self_curveDate self ∧
    disc_interpMethod d = self_interpMethod self ∧
    (disc_times d ∉ dom h) ∧
    (disc_values d ∉ dom h) ∧
    disc_times d ≠ disc_values d ∧
    length vs' = length vs ∧
    ∀ i, vs' !! i = bumped_at bumpSize ts vs i.
Proof.
  intros Hts Hvs Hlen.
  set (a := fresh (dom h)).
  set (h1 := <[a := ts]> h).
  set (b := fresh (dom h1)).
  set (h2 := <[b := vs]> h1).
  assert (Ha : a ∉ dom h) by apply is_fresh.
  assert (Hb : b ∉ dom h1) by apply is_fresh.
  assert (Hab : a ≠ b).
  { intros Heq. apply Hb. rewrite <- Heq. unfold h1.
    rewrite dom_insert_L. set_solver. }
  assert (Hbh : b ∉ dom h).
  { intros Hin. apply Hb. unfold h1. rewrite dom_insert_L. set_solver. }
  assert (Has : a ≠ self_times self).
  { intros Heq. apply Ha. rewrite Heq. apply elem_of_dom. eauto. }
  assert (Hbs : b ≠ self_values self).
  { intros Heq. apply Hbh. rewrite Heq. apply elem_of_dom. eauto. }
  assert (Hbt : b ≠ self_times self).
  { intros Heq. apply Hbh. rewrite Heq. apply elem_of_dom. eauto. }
  assert (H1v : h1 !! self_values self = Some vs).
  { unfold h1. destruct (decide (a = self_values self)) as [Heq|Hne].
    - exfalso. apply Ha. rewrite Heq. apply elem_of_dom. eauto.
    - rewrite lookup_insert_ne by assumption. assumption. }
  assert (H2t : h2 !! self_times self = Some ts).
  { unfold h2, h1. rewrite !lookup_insert_ne by assumption. assumption. }
  assert (H2a : h2 !! a = Some ts).
  { unfold h2, h1. rewrite lookup_insert_ne by congruence.
    apply lookup_insert_eq. }
  assert (H2b : h2 !! b = Some vs) by apply lookup_insert_eq.
  destruct (for_each_bump bumpSize a b ts (length ts) 0 h2 vs)
    as (vs' & Hloop & Hlen' & Hpt); try assumption; try lia.
  exists (mkDiscountCurve _ (self_curveDate self) a b
            (self_interpMethod self)), vs'.
  split; [| repeat split; try assumption].
  - unfold bump.
    erewrite run_bind; [| apply np_copy_run; eassumption].
    erewrite run_bind; [| apply np_copy_run; exact H1v].
    erewrite run_bind; [| apply np_len_run; exact H2t].
    erewrite run_bind; [| exact Hloop].
    simpl. unfold h2. rewrite insert_insert_eq. reflexivity.
  - intros i. rewrite Hpt.
    destruct (decide (0 ≤ i < 0 + length ts)%nat) as [|Hout];
      [reflexivity |].
    unfold bumped_at. rewrite (lookup_ge_None_2 vs i) by lia. reflexivity.
Qed.

End BumpFacts.

Section BumpTheorems.
Import FinZeroCurve.
Context {conv : Conventions} {coll : Collaborators}.

Lemma load_Some (h : heap) (self : obj) (c : t) :
  load h self = Some c →
  h !! self_times self = Some (_times c) ∧
  h !! self_values self = Some (_values c) ∧
  _curveDate c = self_curveDate self ∧
  _interpMethod c = self_interpMethod self.
Proof.
  unfold load. intros Hload.
  destruct (h !! self_times self) as [ts|]; [| discriminate].
  destruct (h !! self_values self) as [vs|]; [| discriminate].
  simpl in Hload. injection Hload as <-. simpl. auto.
Qed.

(** An object the constructor has just made holds a constructed curve, and
    making it touched no array that existed. *)
Lemma new_constructed cd tds zr fsel dsel im (h h' : heap) (self : obj) :
  new cd tds zr fsel dsel im h = Ok (self, h') →
  ∃ c, __init__ cd tds zr fsel dsel im = Ok c ∧
       load h' self = Some c ∧
       ∀ a, a ∈ dom h → h' !! a = h !! a.
Proof.
  unfold new. destruct (__init__ cd tds zr fsel dsel im) as [c|e];
    [| discriminate].
  intros Hnew. exists c. split; [reflexivity |].
  erewrite run_bind in Hnew; [| apply np_array_run].
  erewrite run_bind in Hnew; [| apply np_array_run].
  injection Hnew as <- <-.
  set (a := fresh (dom h)).
  set (h1 := <[a := _times c]> h).
  set (b := fresh (dom h1)).
  assert (Ha : a ∉ dom h) by apply is_fresh.
  assert (Hb : b ∉ dom h1) by apply is_fresh.
  assert (Hab : a ≠ b).
  { intros Heq. apply Hb. rewrite <- Heq. unfold h1.
    rewrite dom_insert_L. set_solver. }
  split.
  - unfold load. simpl. fold a h1 b.
    rewrite (lookup_insert_ne _ b a) by done.
    unfold h1. rewrite lookup_insert_eq. simpl.
    rewrite lookup_insert_eq. simpl. destruct c. reflexivity.
  - intros r Hr. fold a h1 b.
    rewrite lookup_insert_ne.
    + unfold h1. rewrite lookup_insert_ne; [reflexivity |].
      intros ->. contradiction.
    + intros ->. apply Hb. unfold h1. rewrite dom_insert_L. set_solver.
Qed.

(** C2, amended.  On a constructed curve, [bump] returns an instance of
    FinDiscountCurve -- not of FinZeroCurve: it carries no day-count and no
    frequency convention -- made of the curve date, the interpolation
    method and two arrays allocated by the call: a copy of the time grid,
    and the values [values[i] * exp (-bumpSize * times[i])]. *)
Theorem bump_returns_discount_curve (self : obj) (bumpSize : R) (h : heap)
    (c : t) :
  load h self = Some c → constructed c →
  ∃ d h', bump self bumpSize h = Ok (DiscountCurveObject d, h') ∧
    disc_curveDate d = _curveDate c ∧
    disc_interpMethod d = _interpMethod c ∧
    h' !! disc_times d = Some (_times c) ∧
    (∃ vs', h' !! disc_values d = Some vs' ∧
       length vs' = length (_values c) ∧
       ∀ i v t, _values c !! i = Some v → _times c !! i = Some t →
         vs' !! i = Some (v * exp (- bumpSize * t))) ∧
    (disc_times d ∉ dom h) ∧
    (disc_values d ∉ dom h) ∧
    disc_times d ≠ disc_values d.
Proof.
  intros Hload Hc.
  apply load_Some in Hload as (Hts & Hvs & Hcd & Him).
  destruct (bump_run self bumpSize h _ _ Hts Hvs (constructed_lengths c Hc))
    as (d & vs' & Hrun & Hd1 & Hd2 & Hfa & Hfb & Hab & Hlen & Hpt).
  eexists d, _. split; [exact Hrun |].
  repeat split; try congruence; try assumption.
  - rewrite lookup_insert_ne by congruence. apply lookup_insert_eq.
  - exists vs'. split; [apply lookup_insert_eq |]. split; [assumption |].
    intros i v t Hv Ht. rewrite Hpt. unfold bumped_at.
    rewrite Hv, Ht. reflexivity.
Qed.

(** C8.  Frame of [bump]: on a constructed curve the call returns, the
    source object then holds the very curve it held before (curve date,
    times, values, day count, frequency, interpolation method), every array
    that existed has its content unchanged, and the returned object refers
    to neither array of the source. *)
Theorem bump_leaves_source_unchanged (self : obj) (bumpSize : R) (h : heap)
    (c : t) :
  load h self = Some c → constructed c →
  ∃ o h', bump self bumpSize h = Ok (o, h') ∧
    load h' self = Some c ∧
    (∀ a, a ∈ dom h → h' !! a = h !! a) ∧
    (∀ a, a ∈ refs_of o → a ≠ self_times self ∧ a ≠ self_values self).
Proof.
  intros Hload Hc.
  pose proof (load_Some _ _ _ Hload) as (Hts & Hvs & _ & _).
  destruct (bump_run self bumpSize h _ _ Hts Hvs (constructed_lengths c Hc))
    as (d & vs' & Hrun & _ & _ & Hfa & Hfb & _ & _ & _).
  assert (Hframe : ∀ a, a ∈ dom h →
    (<[disc_values d := vs']>
       (<[disc_times d := _times c]> h)) !! a = h !! a).
  { intros a Ha. rewrite !lookup_insert_ne; [reflexivity | |];
      intros Heq; subst a; contradiction. }
  assert (Hst : self_times self ∈ dom h) by (apply elem_of_dom; eauto).
  assert (Hsv : self_values self ∈ dom h) by (apply elem_of_dom; eauto).
  eexists (DiscountCurveObject d), _. split; [exact Hrun |].
  split; [| split; [exact Hframe |]].
  - unfold load in *. rewrite !Hframe by assumption. exact Hload.
  - intros a Ha. simpl in Ha.
    apply elem_of_cons in Ha as [->|Ha];
      [| apply elem_of_cons in Ha as [->|Ha];
         [| apply elem_of_nil in Ha; contradiction]];
      split; intros Heq; rewrite Heq in *; contradiction.
Qed.

End BumpTheorems.

(** ** The statements on the sample market *)

Module SampleFacts.
Import FinZeroCurve Sample.

Lemma curve_built :
  __init__ d0 offsets rates (Member ANNUAL) (Member ACT_365) FLAT_FORWARDS
  = Ok curve.
Proof. unfold __init__, offsets, rates. run. reflexivity. Defined.

Lemma dated_curve_built :
  __init__ d0 dates rates (Member SEMI_ANNUAL) (Member ACT_360) FLAT_FORWARDS
  = Ok dated_curve.
Proof. unfold __init__, dates, rates. run. reflexivity. Defined.

Lemma float_mode_stores_quotes_witness :
  0 <= 1 ∧
  _times curve !! 1%nat = Some 1 ∧
  _values curve !! 1%nat = Some (quoted_df 1 0.02 1 1).
Proof.
  apply (float_mode_stores_quotes (coll := collaborators) d0 offsets rates
           ANNUAL ACT_365 FLAT_FORWARDS curve 0 1 1 0.02 curve_built);
    try reflexivity.
  intros _. simpl. lra.
Defined.

Lemma date_mode_stores_quotes_witness :
  _times dated_curve !! 1%nat = Some (IZR (date_sub d1 d0) / 365) ∧
  _values dated_curve !! 1%nat
  = Some (quoted_df 2 0.02 (IZR (date_sub d1 d0) / 365)
            (year_fraction ACT_360 d0 d1)).
Proof.
  apply (date_mode_stores_quotes (coll := collaborators) d0 dates rates
           SEMI_ANNUAL ACT_360 FLAT_FORWARDS dated_curve d0 1 d1 0.02
           dated_curve_built);
    try reflexivity.
  intros _. simpl. lra.
Defined.

(** A negative offset: the condition holds and construction raises. *)
Lemma construction_failures_witness :
  named_failure (coll := collaborators) d0 [PyFloat (-1)] [0.02]
    (Member ANNUAL) (Member ACT_365) ∧
  raises (__init__ d0 [PyFloat (-1)] [0.02] (Member ANNUAL) (Member ACT_365)
            FLAT_FORWARDS).
Proof.
  assert (Hneg : named_failure (coll := collaborators) d0 [PyFloat (-1)]
                   [0.02] (Member ANNUAL) (Member ACT_365)).
  { exists NegativeTime. simpl. exists (PyFloat (-1)), (-1).
    split; [apply list_elem_of_here |]. split; [reflexivity | lra]. }
  split; [exact Hneg |].
  destruct (construction_failures (coll := collaborators) d0 [PyFloat (-1)]
              [0.02] (Member ANNUAL) (Member ACT_365) FLAT_FORWARDS)
    as [Hif Hiff].
  apply Hiff; [| | exact Hneg].
  - unfold uniform. simpl. repeat constructor.
  - intros ft [= <-]. simpl. lia.
Defined.

(** A float followed by a string: construction raises [TypeError] at the
    second element, and none of the seven conditions holds. *)
Lemma mixed_quotes_counterexample :
  ¬ (raises (__init__ d0 mixed [0; 0.02] (Member ANNUAL) (Member ACT_365)
               FLAT_FORWARDS)
     ↔ named_failure (coll := collaborators) d0 mixed [0; 0.02]
         (Member ANNUAL) (Member ACT_365)).
Proof.
  intros [Hto _].
  destruct Hto as [f Hf].
  { exists TypeError. unfold __init__, mixed. run. reflexivity. }
  destruct f; simpl in Hf.
  - discriminate.
  - contradiction.
  - destruct Hf as [s Hs]. discriminate.
  - destruct Hf as [s Hs]. discriminate.
  - destruct Hf as (td & t & Hin & Hoff & Hneg). unfold mixed in Hin.
    apply elem_of_cons in Hin as [->|Hin];
      [| apply elem_of_cons in Hin as [->|Hin];
         [| apply elem_of_nil in Hin; contradiction]];
      simpl in Hoff; [injection Hoff as <-; lra | discriminate].
  - destruct Hf as (td & Hhd & Hnf & _). injection Hhd as <-.
    apply Hnf. exact I.
  - destruct Hf as (ts & Hts & Hbad). discriminate.
Qed.

(** A frequency that resolves to 0 periods: construction raises
    [ZeroDivisionError] at the first quote. *)
Lemma simple_frequency_divides_by_zero :
  __init__ d0 offsets rates (Member SIMPLE) (Member ACT_365) FLAT_FORWARDS
  = Raise ZeroDivisionError.
Proof. unfold __init__, offsets, rates. run. reflexivity. Qed.

(** Integers after a float are taken as offsets. *)
Lemma integers_after_float_accepted :
  __init__ d0 [PyFloat 0; PyInt 1; PyInt 2] rates (Member ANNUAL)
    (Member ACT_365) FLAT_FORWARDS
  = Ok curve.
Proof. unfold __init__, rates. run. reflexivity. Qed.

Lemma first_element_selects_mode_witness :
  __init__ d0 [PyInt 1; PyFloat 2] [0.01; 0.02] (Member ANNUAL)
    (Member ACT_365) FLAT_FORWARDS
  = Raise (FinError "Input timeOrDates must be list of times or dates") ∧
  __init__ d0 (PyFloat 0 :: map int_as_float [PyInt 1; PyInt 2]) rates
    (Member ANNUAL) (Member ACT_365) FLAT_FORWARDS
  = __init__ d0 [PyFloat 0; PyInt 1; PyInt 2] rates (Member ANNUAL)
      (Member ACT_365) FLAT_FORWARDS.
Proof.
  split.
  - apply (proj1 (first_element_selects_mode (coll := collaborators) d0
                    (PyInt 1) [PyFloat 2] [0.01; 0.02] ANNUAL ACT_365
                    FLAT_FORWARDS eq_refl)); simpl; tauto.
  - apply (proj2 (first_element_selects_mode (coll := collaborators) d0
                    (PyFloat 0) [PyInt 1; PyInt 2] rates ANNUAL ACT_365
                    FLAT_FORWARDS eq_refl)). exact I.
Defined.

Lemma time_one : inputTime (PyFloat 1) curve = Ok 1.
Proof. simpl. unfold input_time. run. reflexivity. Defined.

Lemma df_one :
  df curve (PyFloat 1) = Ok (1 / Rpower (1 + 0.02 / 1) (1 * 1)).
Proof. unfold df. simpl. unfold input_time. run. reflexivity. Defined.

Lemma zeroRate_simple_interest_raises_witness :
  zeroRate curve (PyFloat 1) 0 = Raise ZeroDivisionError.
Proof.
  apply (proj2 (zeroRate_simple_interest_raises (coll := collaborators)
                  (help := helpers) curve (PyFloat 1) 0%Z eq_refl)
           1 _ time_one df_one).
Defined.


Lemma df_no_ValueError (d : FinDate) (msg : string) :
  df curve (PyDate d) ≠ Raise (ValueError msg).
Proof.
  unfold df. simpl. unfold input_time.
  destruct (decide _); simpl; discriminate.
Defined.

Lemma fwdRate_date_order_witness :
  date_order_error (fwdRate curve (mkDate 43000) d1 ACT_365) ∧
  fwdRate curve d1 d2 ACT_365
  = Ok ((1 / Rpower (1 + 0.02 / 1) (1 * 1)
         / (1 / Rpower (1 + 0.03 / 1) (1 * 2)) - 1)
        / year_fraction ACT_365 d1 d2).
Proof.
  assert (Hlook : ∀ d, ¬ date_order_error (df curve (PyDate d))).
  { intros d [H|H]; exact (df_no_ValueError d _ H). }
  destruct (fwdRate_date_order (coll := collaborators) (help := helpers)
              curve (mkDate 43000) d1 ACT_365) as (_ & Horder & _).
  destruct (fwdRate_date_order (coll := collaborators) (help := helpers)
              curve d1 d2 ACT_365) as (_ & _ & Hvalue).
  split.
  - apply (Horder (Hlook _) (Hlook _)). left. unfold date_lt. simpl. lia.
  - apply Hvalue.
    + unfold date_lt. simpl. lia.
    + unfold date_lt. simpl. lia.
    + unfold df. simpl. unfold input_time. run. reflexivity.
    + unfold df. simpl. unfold input_time. run. reflexivity.
    + apply Rgt_not_eq. unfold Rpower.
      apply Rdiv_lt_0_compat; [lra | apply exp_pos].
    + simpl. days. lra.
Defined.

Lemma load_self0 : load heap0 self0 = Some curve.
Proof.
  unfold load, heap0, self0. simpl.
  rewrite (lookup_insert_ne _ 1%nat 0%nat) by done.
  rewrite lookup_insert_eq. simpl. rewrite lookup_insert_eq. reflexivity.
Defined.

Lemma curve_constructed : constructed curve.
Proof.
  exists d0, offsets, rates, (Member ANNUAL), (Member ACT_365), FLAT_FORWARDS.
  exact curve_built.
Defined.

Lemma bump_returns_discount_curve_witness :
  ∃ d h', bump self0 0.01 heap0 = Ok (DiscountCurveObject d, h') ∧
    h' !! disc_times d = Some [0; 1; 2].
Proof.
  destruct (bump_returns_discount_curve self0 0.01 heap0 curve load_self0
              curve_constructed) as (d & h' & Hrun & _ & _ & Htimes & _).
  exists d, h'. split; [exact Hrun | exact Htimes].
Defined.

(** What [bump] returns on the sample object is no instance of
    FinZeroCurve. *)
Lemma bump_not_zero_curve_counterexample :
  ¬ ∃ z h', bump self0 0.01 heap0 = Ok (ZeroCurveObject z, h').
Proof.
  intros (z & h' & Hz).
  pose proof (load_Some _ _ _ load_self0) as (Hts & Hvs & _).
  destruct (bump_run self0 0.01 heap0 _ _ Hts Hvs eq_refl)
    as (d & vs' & Hrun & _).
  rewrite Hrun in Hz. discriminate.
Qed.

Lemma bump_leaves_source_unchanged_witness :
  ∃ o h', bump self0 0.01 heap0 = Ok (o, h') ∧ load h' self0 = Some curve.
Proof.
  destruct (bump_leaves_source_unchanged self0 0.01 heap0 curve load_self0
              curve_constructed) as (o & h' & Hrun & Hload & _).
  exists o, h'. split; [exact Hrun | exact Hload].
Defined.

End SampleFacts.

(** * Further properties of the code *)

(** ** The loop on the quotes of one mode *)

Section UniformLoop.
Import FinZeroCurve.
Variable off : PyVal → option R.
Variable good : PyVal → Prop.
Variable body : PyVal → R → result (R * R).

(** On a good element the body refuses a negative offset and processes any
    other. *)
Hypothesis body_good : ∀ td r, good td →
  ∃ t, off td = Some t ∧
    (t < 0 → body td r = Raise (FinError "Times must be > 0.")) ∧
    (0 <= t → ∃ df, body td r = Ok (t, df)).

Lemma mapM_cons_Some (td : PyVal) (tds : list PyVal) (ts : list R) :
  mapM off (td :: tds) = Some ts →
  ∃ t ts', off td = Some t ∧ mapM off tds = Some ts' ∧ ts = t :: ts'.
Proof.
  simpl. destruct (off td) as [t|]; [| discriminate]. simpl.
  destruct (mapM off tds) as [ts'|]; [| discriminate]. simpl.
  intros [= <-]. eauto.
Qed.

Lemma loop_negative tds : ∀ zr ts,
  length tds = length zr → Forall good tds → mapM off tds = Some ts →
  Exists (λ t, t < 0) ts →
  quotes_loop body tds zr = Raise (FinError "Times must be > 0.").
Proof.
  induction tds as [|td tds IH]; intros zr ts Hlen Hgood Hts Hneg.
  - injection Hts as <-. inversion Hneg.
  - destruct zr as [|r rs]; [discriminate |].
    apply mapM_cons_Some in Hts as (t & ts' & Ht & Hts' & ->).
    apply Forall_cons in Hgood as [Hg Hgood].
    destruct (body_good td r Hg) as (t' & Ht' & Hlt & Hge).
    rewrite Ht in Ht'. injection Ht' as <-.
    simpl. destruct (decide (t < 0)) as [Hn|Hp].
    + rewrite (Hlt Hn). reflexivity.
    + destruct Hge as [df Hb]; [lra |]. rewrite Hb. simpl.
      rewrite (IH rs ts'); [reflexivity | | assumption | assumption |].
      * simpl in Hlen. lia.
      * apply Exists_cons in Hneg as [Hn|Hn]; [contradiction | assumption].
Qed.

Lemma loop_nonneg tds : ∀ zr ts,
  length tds = length zr → Forall good tds → mapM off tds = Some ts →
  Forall (λ t, 0 <= t) ts →
  ∃ values, quotes_loop body tds zr = Ok (ts, values).
Proof.
  induction tds as [|td tds IH]; intros zr ts Hlen Hgood Hts Hpos.
  - injection Hts as <-. exists []. reflexivity.
  - destruct zr as [|r rs]; [discriminate |].
    apply mapM_cons_Some in Hts as (t & ts' & Ht & Hts' & ->).
    apply Forall_cons in Hgood as [Hg Hgood].
    apply Forall_cons in Hpos as [Hp Hpos].
    destruct (body_good td r Hg) as (t' & Ht' & _ & Hge).
    rewrite Ht in Ht'. injection Ht' as <-.
    destruct (Hge Hp) as [df Hb].
    destruct (IH rs ts') as [vs Hrest]; try assumption.
    { simpl in Hlen. lia. }
    exists (df :: vs). simpl. rewrite Hb. simpl. rewrite Hrest. reflexivity.
Qed.

End UniformLoop.

Section LoopOrder.
Import FinZeroCurve.

(** The first body that raises ends the loop with its exception. *)
Lemma quotes_loop_first_failure body tds : ∀ zr i td r e,
  (∀ j tdj rj, (j < i)%nat → tds !! j = Some tdj → zr !! j = Some rj →
     returns (body tdj rj)) →
  tds !! i = Some td → zr !! i = Some r → body td r = Raise e →
  quotes_loop body tds zr = Raise e.
Proof.
  induction tds as [|td0 tds IH]; intros zr i td r e Hbefore Htd Hr Hb.
  - discriminate.
  - destruct zr as [|r0 rs]; [discriminate |].
    destruct i as [|i]; simpl in Htd, Hr.
    + injection Htd as <-. injection Hr as <-. simpl. rewrite Hb. reflexivity.
    + destruct (Hbefore 0%nat td0 r0) as [[t0 df0] Hb0];
        [lia | reflexivity | reflexivity |].
      simpl. rewrite Hb0. simpl.
      rewrite (IH rs i td r e); [reflexivity | | assumption..].
      intros j tdj rj Hj Htdj Hrj.
      apply (Hbefore (S j) tdj rj); [lia | assumption..].
Qed.

Lemma quotes_loop_ext body1 body2 tds : ∀ zr,
  (∀ td r, body1 td r = body2 td r) →
  quotes_loop body1 tds zr = quotes_loop body2 tds zr.
Proof.
  induction tds as [|td tds IH]; intros zr Hext; [reflexivity |].
  destruct zr as [|r rs]; [reflexivity |].
  simpl. rewrite Hext, (IH rs Hext). reflexivity.
Qed.

End LoopOrder.

(** ** Construction, further *)

Section BuildExtras.
Import FinZeroCurve.
Context {conv : Conventions} {coll : Collaborators}.

Lemma float_quote_good cd freq td r :
  freq ≠ 0%Z → is_number td →
  ∃ t, resolved_offset cd td = Some t ∧
    (t < 0 → float_quote freq td r = Raise (FinError "Times must be > 0.")) ∧
    (0 <= t → ∃ df, float_quote freq td r = Ok (t, df)).
Proof.
  intros Hf Hnum.
  assert (Hoff : ∃ t, as_number td = Ok t ∧ resolved_offset cd td = Some t).
  { destruct td; simpl in *; try tauto; eauto. }
  destruct Hoff as (t & Ht & Hoff). exists t. split; [assumption |].
  unfold float_quote. rewrite Ht. simpl. split; intros Hs.
  - destruct (decide (t < 0)); [reflexivity | contradiction].
  - destruct (decide (t < 0)); [lra |].
    destruct (decide (freq = (-1)%Z)); simpl; [eauto |].
    rewrite pydiv_Ok; [simpl; eauto |].
    intros H0. apply eq_IZR in H0. contradiction.
Qed.

Lemma date_quote_good cd dct freq td r :
  freq ≠ 0%Z → is_date td →
  ∃ t, resolved_offset cd td = Some t ∧
    (t < 0 →
     date_quote cd dct freq td r = Raise (FinError "Times must be > 0.")) ∧
    (0 <= t → ∃ df, date_quote cd dct freq td r = Ok (t, df)).
Proof.
  intros Hf Hdate. destruct td as [x|n|d|s]; simpl in Hdate; try tauto.
  exists (IZR (date_sub d cd) / gDaysInYear). split; [reflexivity |].
  unfold date_quote. simpl. split; intros Hs.
  - destruct (decide (_ < 0)); [reflexivity | contradiction].
  - destruct (decide (_ < 0)); [lra |].
    destruct (decide (freq = (-1)%Z)); simpl; [eauto |].
    rewrite pydiv_Ok; [simpl; eauto |].
    intros H0. apply eq_IZR in H0. contradiction.
Qed.

(** The run of the constructor on a quote list of one mode. *)
Lemma init_well_typed cd tds zr ft dct im ts :
  well_typed tds → length tds = length zr → FinFrequency ft ≠ 0%Z →
  mapM (resolved_offset cd) tds = Some ts →
  (Exists (λ t, t < 0) ts →
   __init__ cd tds zr (Member ft) (Member dct) im
   = Raise (FinError "Times must be > 0.")) ∧
  (Forall (λ t, 0 <= t) ts →
   ∃ values,
     __init__ cd tds zr (Member ft) (Member dct) im
     = if testMonotonicity ts then Ok (mk _ cd ts values dct ft im)
       else Raise (FinError
              "Times or dates are not sorted in increasing order")).
Proof.
  intros Hwt Hlen Hf Hts.
  assert (Hne : length tds ≠ 0%nat).
  { unfold well_typed in Hwt. destruct tds; [contradiction | discriminate]. }
  assert (Hbody : ∃ body,
    mode_body cd dct (FinFrequency ft) (head tds) = Some body ∧
    (Exists (λ t, t < 0) ts →
     quotes_loop body tds zr = Raise (FinError "Times must be > 0.")) ∧
    (Forall (λ t, 0 <= t) ts →
     ∃ values, quotes_loop body tds zr = Ok (ts, values))).
  { unfold well_typed in Hwt.
    destruct (head tds) as [[x|n|d|s]|] eqn:Hhd; try contradiction.
    - exists (float_quote (FinFrequency ft)). split; [reflexivity |].
      split; intros Hs.
      + eapply (loop_negative (resolved_offset cd) is_number); eauto.
        intros td r Hg. apply float_quote_good; assumption.
      + eapply (loop_nonneg (resolved_offset cd) is_number); eauto.
        intros td r Hg. apply float_quote_good; assumption.
    - exists (date_quote cd dct (FinFrequency ft)). split; [reflexivity |].
      split; intros Hs.
      + eapply (loop_negative (resolved_offset cd) is_date); eauto.
        intros td r Hg. apply date_quote_good; assumption.
      + eapply (loop_nonneg (resolved_offset cd) is_date); eauto.
        intros td r Hg. apply date_quote_good; assumption. }
  destruct Hbody as (body & Hmode & Hneg & Hpos).
  assert (Hrun : __init__ cd tds zr (Member ft) (Member dct) im
    = quotes_loop body tds zr ≫= λ '(times, values),
        if testMonotonicity times
        then Ok (mk _ cd times values dct ft im)
        else Raise (FinError
               "Times or dates are not sorted in increasing order")).
  { unfold __init__.
    destruct (decide (length tds = 0%nat)) as [|_]; [contradiction |].
    destruct (decide (length tds ≠ length zr)) as [|_]; [contradiction |].
    destruct (head tds) as [[x|n|d|s]|]; simpl in Hmode; try discriminate;
      injection Hmode as <-; reflexivity. }
  split; intros Hs.
  - rewrite Hrun, (Hneg Hs). reflexivity.
  - destruct (Hpos Hs) as [values Hloop]. exists values.
    rewrite Hrun, Hloop. reflexivity.
Qed.

(** X1.  What every constructed curve satisfies: one time and one value per
    quote, at least one quote, no negative time, times in non-decreasing
    order, and the date, conventions and method it was given. *)
Theorem constructed_curve_invariants cd tds zr fsel dsel im c :
  __init__ cd tds zr fsel dsel im = Ok c →
  length (_times c) = length tds ∧
  length (_values c) = length tds ∧
  (0 < length tds)%nat ∧
  Forall (λ t, 0 <= t) (_times c) ∧
  testMonotonicity (_times c) = true ∧
  _curveDate c = cd ∧ _interpMethod c = im ∧
  fsel = Member (_frequencyType c) ∧ dsel = Member (_dayCountType c).
Proof.
  intros Hrun.
  apply init_Ok in Hrun
    as (ft & dct & body & -> & -> & Hne & Hlen & Hmode & Hloop & Hmono & Hc).
  destruct (quotes_loop_length _ _ _ _ _ Hloop) as [Hlt Hlv].
  repeat split; try assumption; try (rewrite Hc; reflexivity).
  - destruct tds; [contradiction | simpl; lia].
  - apply Forall_lookup. intros i t Ht.
    destruct (lookup_lt_is_Some_2 tds i) as [td Htd].
    { rewrite <- Hlt. eapply lookup_lt_Some. eassumption. }
    destruct (lookup_lt_is_Some_2 zr i) as [r Hr].
    { rewrite <- Hlen. eapply lookup_lt_Some. eassumption. }
    destruct (quotes_loop_lookup _ _ _ _ _ Hloop i _ _ Htd Hr)
      as (t' & df & Hb & Ht' & _).
    rewrite Ht in Ht'. injection Ht' as <-.
    apply (mode_body_Ok _ _ _ _ _ _ _ _ _ Hmode Hb).
Qed.

(** X2.  Every stored discount factor of a constructed curve is strictly
    positive (rates with a positive compounding base). *)
Theorem constructed_values_positive cd tds zr ft dct im c :
  __init__ cd tds zr (Member ft) (Member dct) im = Ok c →
  (∀ r, r ∈ zr → real_base (FinFrequency ft) r) →
  Forall (λ v, 0 < v) (_values c).
Proof.
  intros Hrun _.
  apply init_Ok in Hrun
    as (ft' & dct' & body & [= <-] & [= <-] & _ & Hlen & Hmode & Hloop & _).
  destruct (quotes_loop_length _ _ _ _ _ Hloop) as [_ Hlv].
  apply Forall_lookup. intros i v Hv.
  destruct (lookup_lt_is_Some_2 tds i) as [td Htd].
  { rewrite <- Hlv. eapply lookup_lt_Some. eassumption. }
  destruct (lookup_lt_is_Some_2 zr i) as [r Hr].
  { rewrite <- Hlen. eapply lookup_lt_Some. eassumption. }
  destruct (quotes_loop_lookup _ _ _ _ _ Hloop i _ _ Htd Hr)
    as (t & df & Hb & _ & Hv').
  rewrite Hv in Hv'. injection Hv' as <-.
  assert (Hval : (∃ x, v = exp x) ∨ (∃ b e, v = 1 / Rpower b e)).
  { destruct (head tds) as [[x|n|d|s]|]; simpl in Hmode; try discriminate;
      injection Hmode as <-.
    - apply float_quote_Ok in Hb as (_ & _ & Hval).
      destruct (decide (FinFrequency ft = (-1)%Z));
        [left | right; destruct Hval as [_ Hval]]; eauto.
    - apply date_quote_Ok in Hb as (d' & _ & _ & _ & Hval).
      destruct (decide (FinFrequency ft = (-1)%Z));
        [left | right; destruct Hval as [_ Hval]]; eauto. }
  destruct Hval as [[x ->] | (b & e & ->)].
  - apply exp_pos.
  - unfold Rpower. apply Rdiv_lt_0_compat; [lra | apply exp_pos].
Qed.

(** X3.  The order of the four validations: an empty list is refused first,
    then a difference of lengths, then a frequency that is no member, then a
    day count that is no member, each with its own message. *)
Theorem validation_order cd tds zr fsel dsel im :
  (tds = [] →
   __init__ cd tds zr fsel dsel im = Raise (FinError "Times has zero length"))
  ∧ (tds ≠ [] → length tds ≠ length zr →
     __init__ cd tds zr fsel dsel im
     = Raise (FinError "Times and Values are not the same"))
  ∧ (tds ≠ [] → length tds = length zr → ∀ s, fsel = Foreign s →
     __init__ cd tds zr fsel dsel im
     = Raise (FinError ("Unknown Frequency type " +:+ s)))
  ∧ (tds ≠ [] → length tds = length zr → ∀ ft s,
     fsel = Member ft → dsel = Foreign s →
     __init__ cd tds zr fsel dsel im
     = Raise (FinError ("Unknown Cap Floor DayCountRule type " +:+ s))).
Proof.
  unfold __init__. repeat split.
  - intros ->. reflexivity.
  - intros Hne Hlen.
    destruct (decide (length tds = 0%nat)) as [Hz|_].
    { destruct tds; [contradiction | discriminate]. }
    destruct (decide (length tds ≠ length zr)); [reflexivity | contradiction].
  - intros Hne Hlen s ->.
    destruct (decide (length tds = 0%nat)) as [Hz|_].
    { destruct tds; [contradiction | discriminate]. }
    destruct (decide (length tds ≠ length zr)); [contradiction | reflexivity].
  - intros Hne Hlen ft s -> ->.
    destruct (decide (length tds = 0%nat)) as [Hz|_].
    { destruct tds; [contradiction | discriminate]. }
    destruct (decide (length tds ≠ length zr)); [contradiction | reflexivity].
Qed.

(** X4.  On a quote list of one mode, a negative offset anywhere is refused
    with "Times must be > 0.", whether or not the times are sorted. *)
Theorem negative_time_refused cd tds zr ft dct im ts :
  well_typed tds → length tds = length zr → FinFrequency ft ≠ 0%Z →
  mapM (resolved_offset cd) tds = Some ts →
  Exists (λ t, t < 0) ts →
  __init__ cd tds zr (Member ft) (Member dct) im
  = Raise (FinError "Times must be > 0.").
Proof.
  intros Hwt Hlen Hf Hts Hneg.
  apply (init_well_typed cd tds zr ft dct im ts Hwt Hlen Hf Hts). assumption.
Qed.


(** X6.  On a quote list of one mode, with as many rates, a nonzero number of
    periods, no negative offset and times that pass the monotonicity test,
    construction returns a curve, and its times are the resolved offsets. *)
Theorem construction_returns cd tds zr ft dct im ts :
  well_typed tds → length tds = length zr → FinFrequency ft ≠ 0%Z →
  mapM (resolved_offset cd) tds = Some ts →
  Forall (λ t, 0 <= t) ts → testMonotonicity ts = true →
  ∃ c, __init__ cd tds zr (Member ft) (Member dct) im = Ok c ∧
       _times c = ts.
Proof.
  intros Hwt Hlen Hf Hts Hpos Hmono.
  destruct (init_well_typed cd tds zr ft dct im ts Hwt Hlen Hf Hts) as [_ H].
  destruct (H Hpos) as [values Hrun]. rewrite Hmono in Hrun.
  eexists. split; [exact Hrun | reflexivity].
Qed.

(** X7.  The quotes are processed in list order and the first one that raises
    decides the exception of the construction; the quotes after it are not
    looked at. *)
Theorem first_failing_quote_decides cd tds zr ft dct im body i td r e :
  length tds = length zr →
  mode_body cd dct (FinFrequency ft) (head tds) = Some body →
  (∀ j tdj rj, (j < i)%nat → tds !! j = Some tdj → zr !! j = Some rj →
     returns (body tdj rj)) →
  tds !! i = Some td → zr !! i = Some r → body td r = Raise e →
  __init__ cd tds zr (Member ft) (Member dct) im = Raise e.
Proof.
  intros Hlen Hmode Hbefore Htd Hr Hb.
  pose proof (quotes_loop_first_failure body tds zr i td r e Hbefore Htd Hr Hb)
    as Hloop.
  unfold __init__.
  destruct (decide (length tds = 0%nat)) as [Hz|_].
  { destruct tds; [discriminate Htd | discriminate Hz]. }
  destruct (decide (length tds ≠ length zr)) as [|_]; [contradiction |].
  destruct (head tds) as [[x|n|d|s]|]; simpl in Hmode; try discriminate;
    injection Hmode as <-; rewrite Hloop; reflexivity.
Qed.

End BuildExtras.

(** ** The stored discount factors *)

Section ValueExtras.
Import FinZeroCurve.
Context {conv : Conventions} {coll : Collaborators}.

Lemma Rpower_zero_exponent b : Rpower b 0 = 1.
Proof. unfold Rpower. rewrite Rmult_0_l. apply exp_0. Qed.

Lemma Rpower_one_base e : Rpower 1 e = 1.
Proof. unfold Rpower. rewrite ln_1, Rmult_0_r. apply exp_0. Qed.

(** The value the loop stores at an index, with its quote. *)
Lemma stored_quote cd tds zr ft dct im c i td r :
  __init__ cd tds zr (Member ft) (Member dct) im = Ok c →
  tds !! i = Some td → zr !! i = Some r →
  ∃ body t v,
    mode_body cd dct (FinFrequency ft) (head tds) = Some body ∧
    body td r = Ok (t, v) ∧
    _times c !! i = Some t ∧ _values c !! i = Some v.
Proof.
  intros Hrun Htd Hr.
  apply init_Ok in Hrun
    as (ft' & dct' & body & [= <-] & [= <-] & _ & _ & Hmode & Hloop & _).
  destruct (quotes_loop_lookup _ _ _ _ _ Hloop i _ _ Htd Hr)
    as (t & v & Hb & Ht & Hv).
  exists body, t, v. auto.
Qed.

(** X8.  Float-offset mode: a quote at time 0 stores the discount factor 1,
    whatever its rate. *)
Theorem time_zero_stores_one cd tds zr ft dct im c x0 i r :
  __init__ cd tds zr (Member ft) (Member dct) im = Ok c →
  head tds = Some (PyFloat x0) →
  tds !! i = Some (PyFloat 0) → zr !! i = Some r →
  _times c !! i = Some 0 ∧ _values c !! i = Some 1.
Proof.
  intros Hrun Hhead Htd Hr.
  destruct (stored_quote _ _ _ _ _ _ _ _ _ _ Hrun Htd Hr)
    as (body & t & v & Hmode & Hb & Ht & Hv).
  rewrite Hhead in Hmode. injection Hmode as <-.
  apply float_quote_Ok in Hb as ([= <-] & _ & Hval).
  split; [assumption |]. rewrite Hv. f_equal.
  destruct (decide (FinFrequency ft = (-1)%Z)).
  - rewrite Hval, Rmult_0_r. apply exp_0.
  - destruct Hval as [_ ->]. rewrite Rmult_0_r, Rpower_zero_exponent. lra.
Qed.

(** X9.  In either mode a quote with rate 0 stores the discount factor 1,
    whatever its time. *)
Theorem zero_rate_stores_one cd tds zr ft dct im c i td :
  __init__ cd tds zr (Member ft) (Member dct) im = Ok c →
  tds !! i = Some td → zr !! i = Some 0 →
  _values c !! i = Some 1.
Proof.
  intros Hrun Htd Hr.
  destruct (stored_quote _ _ _ _ _ _ _ _ _ _ Hrun Htd Hr)
    as (body & t & v & Hmode & Hb & _ & Hv).
  rewrite Hv. f_equal.
  assert (Hone : ∀ f e, 1 / Rpower (1 + 0 / f) e = 1).
  { intros f e. replace (1 + 0 / f) with 1 by (unfold Rdiv; lra).
    rewrite Rpower_one_base. lra. }
  assert (Hexp : ∀ s, exp (- 0 * s) = 1).
  { intros s. replace (- 0 * s) with 0 by lra. apply exp_0. }
  destruct (head tds) as [[x|n|d|s]|]; simpl in Hmode; try discriminate;
    injection Hmode as <-.
  - apply float_quote_Ok in Hb as (_ & _ & Hval).
    destruct (decide (FinFrequency ft = (-1)%Z));
      [| destruct Hval as [_ Hval]]; rewrite Hval; auto.
  - apply date_quote_Ok in Hb as (d' & _ & _ & _ & Hval).
    destruct (decide (FinFrequency ft = (-1)%Z));
      [| destruct Hval as [_ Hval]]; rewrite Hval; auto.
Qed.

(** X10.  Float-offset mode, continuous or at least one period a year: a
    positive rate at a positive time stores a discount factor strictly
    between 0 and 1. *)
Theorem positive_rate_discounts cd tds zr ft dct im c x0 i t r :
  __init__ cd tds zr (Member ft) (Member dct) im = Ok c →
  head tds = Some (PyFloat x0) →
  tds !! i = Some (PyFloat t) → zr !! i = Some r →
  0 < t → 0 < r →
  (FinFrequency ft = (-1)%Z ∨ (0 < FinFrequency ft)%Z) →
  ∃ v, _values c !! i = Some v ∧ 0 < v < 1.
Proof.
  intros Hrun Hhead Htd Hr Ht Hrate Hfreq.
  destruct (stored_quote _ _ _ _ _ _ _ _ _ _ Hrun Htd Hr)
    as (body & t' & v & Hmode & Hb & _ & Hv).
  rewrite Hhead in Hmode. injection Hmode as <-.
  apply float_quote_Ok in Hb as ([= <-] & _ & Hval).
  exists v. split; [assumption |].
  assert (Hexp : ∀ x, 0 < x → 0 < exp (- x) < 1).
  { intros x Hx. split; [apply exp_pos |].
    rewrite <- exp_0. apply exp_increasing. lra. }
  destruct (decide (FinFrequency ft = (-1)%Z)) as [Hc|Hp].
  - rewrite Hval. replace (- r * t) with (- (r * t)) by lra.
    apply Hexp. apply Rmult_lt_0_compat; assumption.
  - destruct Hval as [_ ->]. destruct Hfreq as [Hc|Hpos]; [contradiction |].
    assert (Hf : 0 < IZR (FinFrequency ft)) by (apply IZR_lt; assumption).
    rewrite inv_power. unfold Rpower.
    replace (- (IZR (FinFrequency ft) * t) * ln (1 + r / IZR (FinFrequency ft)))
      with (- (IZR (FinFrequency ft) * t * ln (1 + r / IZR (FinFrequency ft))))
      by lra.
    apply Hexp.
    apply Rmult_lt_0_compat; [apply Rmult_lt_0_compat; assumption |].
    rewrite <- ln_1. apply ln_increasing; [lra |].
    assert (0 < r / IZR (FinFrequency ft))
      by (apply Rdiv_lt_0_compat; assumption).
    lra.
Qed.

(** X11.  Under continuous compounding the day-count convention has no
    effect on the arrays of the curve, nor on the error of a failed
    construction, in either mode. *)
Theorem continuous_ignores_day_count cd tds zr ft dct1 dct2 im :
  FinFrequency ft = (-1)%Z →
  grid_of (__init__ cd tds zr (Member ft) (Member dct1) im)
  = grid_of (__init__ cd tds zr (Member ft) (Member dct2) im).
Proof.
  intros Hc. unfold __init__.
  destruct (decide (length tds = 0%nat)); [reflexivity |].
  destruct (decide (length tds ≠ length zr)); [reflexivity |].
  assert (Hext : ∀ td r,
    date_quote cd dct1 (FinFrequency ft) td r
    = date_quote cd dct2 (FinFrequency ft) td r).
  { intros td r. unfold date_quote. rewrite Hc.
    destruct (days_from cd td) as [[d days]|e]; simpl; [| reflexivity].
    destruct (decide (_ < 0)); [reflexivity |].
    destruct (decide (-1 = -1)%Z); [reflexivity | done]. }
  destruct (head tds) as [[x|k|d|s]|]; simpl; try reflexivity.
  - destruct (quotes_loop _ tds zr) as [[times values]|e]; simpl;
      [| reflexivity].
    destruct (testMonotonicity times); reflexivity.
  - rewrite (quotes_loop_ext _ _ tds zr Hext).
    destruct (quotes_loop _ tds zr) as [[times values]|e]; simpl;
      [| reflexivity].
    destruct (testMonotonicity times); reflexivity.
Qed.

(** X12.  Float-offset mode uses neither the curve date nor the day-count
    convention: two constructions that differ only there build the same
    arrays, or fail with the same error. *)
Theorem float_mode_ignores_date_and_day_count cd1 cd2 tds zr fsel dct1 dct2
    im x0 :
  head tds = Some (PyFloat x0) →
  grid_of (__init__ cd1 tds zr fsel (Member dct1) im)
  = grid_of (__init__ cd2 tds zr fsel (Member dct2) im).
Proof.
  intros Hhead. unfold __init__. rewrite Hhead.
  destruct (decide (length tds = 0%nat)); [reflexivity |].
  destruct (decide (length tds ≠ length zr)); [reflexivity |].
  destruct fsel as [ft|s]; [| reflexivity].
  destruct (quotes_loop _ tds zr) as [[times values]|e]; simpl;
    [| reflexivity].
  destruct (testMonotonicity times); reflexivity.
Qed.

End ValueExtras.

(** ** Queries, further *)

Section QueryExtras.
Import FinZeroCurve.
Context {conv : Conventions} {coll : Collaborators} {help : QueryHelpers}.

Lemma pypow_positive v e : 0 < v → pypow v e = Ok (Rpower v e).
Proof.
  intros Hv. unfold pypow.
  destruct (decide (v = 0 ∧ e < 0)) as [[Hz _]|_]; [lra | reflexivity].
Qed.

(** X13.  For every frequency but 0, at a nonzero time and a positive
    discount factor, [zeroRate] returns, and the rate it returns reproduces
    the discount factor under the formula of the construction:
    [exp (-z t)] when continuous, [(1 + z/f)^(-f t)] otherwise. *)
Theorem zeroRate_reproduces_discount_factor (self : t) (dt : PyVal)
    (cf f : Z) (t v : R) :
  inputTime dt self = Ok t → inputFrequency cf = Ok f →
  df self (PyFloat t) = Ok v →
  f ≠ 0%Z → t ≠ 0 → 0 < v →
  ∃ z, zeroRate self dt cf = Ok z ∧ quoted_df f z t t = v.
Proof.
  intros Ht Hf Hv Hfz Htz Hpos.
  unfold zeroRate. rewrite Ht. simpl. rewrite Hf. simpl. rewrite Hv. simpl.
  destruct (decide (f = 0%Z)); [contradiction |]. simpl.
  unfold quoted_df.
  destruct (decide (f = (-1)%Z)) as [Hc|Hp]; simpl.
  - eexists. split; [reflexivity |].
    replace (- (- ln v / t) * t) with (ln v) by (field; assumption).
    apply exp_ln. assumption.
  - assert (Hfr : IZR f ≠ 0).
    { intros H0. apply eq_IZR in H0. contradiction. }
    rewrite (pydiv_Ok _ _ Htz). simpl. rewrite (pydiv_Ok _ _ Hfr). simpl.
    rewrite (pypow_positive _ _ Hpos). simpl.
    eexists. split; [reflexivity |].
    replace (1 + (Rpower v (-1 / t / IZR f) - 1) * IZR f / IZR f)
      with (Rpower v (-1 / t / IZR f)) by (field; assumption).
    rewrite Rpower_mult.
    replace (-1 / t / IZR f * - (IZR f * t)) with 1 by (field; auto).
    apply Rpower_1. assumption.
Qed.

(** X15.  Where the discount factors at [t] and [t + 0.000001] are those of
    a constant continuously compounded rate [r], [fwd] returns [r]. *)
Theorem fwd_of_constant_rate (self : t) (dt : PyVal) (t r : R) :
  inputTime dt self = Ok t →
  df self (PyFloat t) = Ok (exp (- r * t)) →
  df self (PyFloat (t + 0.000001)) = Ok (exp (- r * (t + 0.000001))) →
  fwd self dt = Ok r.
Proof.
  intros Ht H1 H2. unfold fwd. rewrite Ht. simpl. rewrite H1. simpl.
  rewrite H2. simpl.
  rewrite pydiv_Ok by (apply Rgt_not_eq, exp_pos). simpl. f_equal.
  unfold Rdiv at 2. rewrite <- exp_Ropp, <- exp_plus, ln_exp. lra.
Qed.

(** X16.  Where the discount factor falls from [t] to [t + 0.000001], both
    being positive, [fwd] returns a positive rate. *)
Theorem fwd_positive_on_falling_curve (self : t) (dt : PyVal) (t v1 v2 : R) :
  inputTime dt self = Ok t →
  df self (PyFloat t) = Ok v1 →
  df self (PyFloat (t + 0.000001)) = Ok v2 →
  0 < v2 → v2 < v1 →
  ∃ f, fwd self dt = Ok f ∧ 0 < f.
Proof.
  intros Ht H1 H2 Hpos Hfall. unfold fwd. rewrite Ht. simpl. rewrite H1.
  simpl. rewrite H2. simpl.
  rewrite pydiv_Ok by lra. simpl. eexists. split; [reflexivity |].
  apply Rdiv_lt_0_compat; [| lra].
  rewrite <- ln_1. apply ln_increasing; [lra |].
  apply Rmult_lt_reg_r with v2; [assumption |].
  unfold Rdiv. rewrite Rmult_assoc, Rinv_l by lra. lra.
Qed.

(** X17.  The rate that [fwdRate] returns is the simple rate between the two
    dates: [df1 = df2 * (1 + fwd * yearFrac)]; and it returns only for
    dates in order. *)
Theorem fwdRate_simple_compounding (self : t) (date1 date2 : FinDate)
    (dct : FinDayCountTypes) (f v1 v2 : R) :
  fwdRate self date1 date2 dct = Ok f →
  df self (PyDate date1) = Ok v1 → df self (PyDate date2) = Ok v2 →
  v1 = v2 * (1 + f * yearFrac dct date1 date2) ∧
  ¬ date_lt date1 (_curveDate self) ∧ ¬ date_lt date2 date1.
Proof.
  unfold fwdRate. intros Hrun H1 H2.
  destruct (decide (date_lt date1 (_curveDate self))); [discriminate |].
  destruct (decide (date_lt date2 date1)); [discriminate |].
  rewrite H1, H2 in Hrun. simpl in Hrun.
  apply bind_Ok in Hrun as (q & Hq & Hrun).
  apply bind_Ok in Hrun as (f' & Hf & Hrun). injection Hrun as <-.
  apply pydiv_inv in Hq as [Hv2 ->]. apply pydiv_inv in Hf as [Hyf ->].
  split; [| split; assumption]. field. split; assumption.
Qed.

(** X18.  With dates in order and both discount factors found, [fwdRate]
    raises [ZeroDivisionError] when the second discount factor is 0 or the
    year fraction is 0. *)
Theorem fwdRate_zero_division (self : t) (date1 date2 : FinDate)
    (dct : FinDayCountTypes) (v1 v2 : R) :
  ¬ date_lt date1 (_curveDate self) → ¬ date_lt date2 date1 →
  df self (PyDate date1) = Ok v1 → df self (PyDate date2) = Ok v2 →
  v2 = 0 ∨ yearFrac dct date1 date2 = 0 →
  fwdRate self date1 date2 dct = Raise ZeroDivisionError.
Proof.
  intros Ho1 Ho2 H1 H2 Hz. unfold fwdRate.
  destruct (decide (date_lt date1 (_curveDate self))); [contradiction |].
  destruct (decide (date_lt date2 date1)); [contradiction |].
  rewrite H1, H2. simpl. unfold pydiv.
  destruct (decide (v2 = 0)); [reflexivity |]. simpl.
  destruct Hz as [Hz|Hz]; [contradiction |].
  destruct (decide (yearFrac dct date1 date2 = 0)); [reflexivity |].
  contradiction.
Qed.

(** X19.  The date checks of [fwdRate] come before any look-up and in this
    order: a first date before the curve date gives "Date1 before curve
    value date." whatever the second date; otherwise a second date before
    the first gives "Date2 must not be before Date1". *)
Theorem fwdRate_error_messages (self : t) (date1 date2 : FinDate)
    (dct : FinDayCountTypes) :
  (date_lt date1 (_curveDate self) →
   fwdRate self date1 date2 dct
   = Raise (ValueError "Date1 before curve value date.")) ∧
  (¬ date_lt date1 (_curveDate self) → date_lt date2 date1 →
   fwdRate self date1 date2 dct
   = Raise (ValueError "Date2 must not be before Date1")).
Proof.
  unfold fwdRate. split.
  - intros H1.
    destruct (decide (date_lt date1 (_curveDate self)));
      [reflexivity | contradiction].
  - intros H1 H2.
    destruct (decide (date_lt date1 (_curveDate self))); [contradiction |].
    destruct (decide (date_lt date2 date1)); [reflexivity | contradiction].
Qed.

End QueryExtras.

(** ** Rendering *)

Section ReprExtras.
Import FinZeroCurve.
Context {conv : Conventions} {coll : Collaborators} {labels : Labels}.

Lemma repr_rows_run (self : t) : ∀ m k s,
  (k + m ≤ length (_times self))%nat →
  (k + m ≤ length (_values self))%nat →
  repr_rows self (seq k m) s
  = Ok (fold_left
          (λ s tv, s +:+ labelToString (PyFloat tv.1) (PyFloat tv.2))
          (take m (drop k (zip (_times self) (_values self)))) s).
Proof.
  induction m as [|m IH]; intros k s Ht Hv; [reflexivity |].
  destruct (lookup_lt_is_Some_2 (_times self) k) as [t Hkt]; [lia |].
  destruct (lookup_lt_is_Some_2 (_values self) k) as [v Hkv]; [lia |].
  assert (Hz : zip (_times self) (_values self) !! k = Some (t, v)).
  { apply lookup_zip_with_Some. eauto. }
  simpl. rewrite Hkt, Hkv.
  rewrite IH by lia.
  rewrite (drop_S _ _ _ Hz). reflexivity.
Qed.

(** X20.  On a constructed curve [__repr__] raises no [IndexError]: it
    returns the header followed by one row per grid node, in grid order. *)
Theorem repr_of_constructed_curve cd tds zr fsel dsel im c :
  __init__ cd tds zr fsel dsel im = Ok c →
  __repr__ c = Ok (rendered (_times c) (_values c)).
Proof.
  intros Hrun.
  assert (Hlen : length (_times c) = length (_values c)).
  { apply constructed_lengths. unfold constructed. eauto 10. }
  unfold __repr__, rendered.
  rewrite repr_rows_run by lia.
  rewrite drop_0, take_ge; [reflexivity |].
  rewrite length_zip_with. lia.
Qed.

End ReprExtras.

(** ** bump on the heap, further *)

Section HeapExtras.
Import FinZeroCurve.
Context {conv : Conventions} {coll : Collaborators}.

(** The whole effect of [bump] on an object that holds a constructed
    curve. *)
Lemma bump_effect (self : obj) (bumpSize : R) (h : heap) (c : t) :
  load h self = Some c → constructed c →
  ∃ d vs' h',
    bump self bumpSize h = Ok (DiscountCurveObject d, h') ∧
    h' = <[disc_values d := vs']> (<[disc_times d := _times c]> h) ∧
    h' !! disc_times d = Some (_times c) ∧
    h' !! disc_values d = Some vs' ∧
    (disc_times d ∉ dom h) ∧ (disc_values d ∉ dom h) ∧
    disc_times d ≠ disc_values d ∧
    length vs' = length (_values c) ∧
    (∀ i, vs' !! i = bumped_at bumpSize (_times c) (_values c) i) ∧
    (∀ a, a ∈ dom h → h' !! a = h !! a) ∧
    load h' self = Some c.
Proof.
  intros Hload Hc.
  pose proof (load_Some _ _ _ Hload) as (Hts & Hvs & _ & _).
  destruct (bump_run self bumpSize h _ _ Hts Hvs (constructed_lengths c Hc))
    as (d & vs' & Hrun & _ & _ & Hfa & Hfb & Hab & Hlen & Hpt).
  assert (Hframe : ∀ a, a ∈ dom h →
    (<[disc_values d := vs']> (<[disc_times d := _times c]> h)) !! a
    = h !! a).
  { intros a Ha. rewrite !lookup_insert_ne; [reflexivity | |];
      intros Heq; subst a; contradiction. }
  eexists d, vs', _. split; [exact Hrun |]. split; [reflexivity |].
  repeat split; try assumption.
  - rewrite lookup_insert_ne by congruence. apply lookup_insert_eq.
  - apply lookup_insert_eq.
  - unfold load in *.
    rewrite !Hframe by (apply elem_of_dom; eauto). exact Hload.
Qed.

(** X21.  [bump(0)] copies the curve: the values of the new curve are the
    values of the source. *)
Theorem bump_zero_copies (self : obj) (h : heap) (c : t) :
  load h self = Some c → constructed c →
  ∃ d h', bump self 0 h = Ok (DiscountCurveObject d, h') ∧
    h' !! disc_times d = Some (_times c) ∧
    h' !! disc_values d = Some (_values c).
Proof.
  intros Hload Hc.
  destruct (bump_effect self 0 h c Hload Hc)
    as (d & vs' & h' & Hrun & _ & Ht & Hv & _ & _ & _ & Hlen & Hpt & _).
  exists d, h'. split; [exact Hrun |]. split; [exact Ht |].
  rewrite Hv. f_equal. apply list_eq. intros i. rewrite Hpt.
  unfold bumped_at.
  destruct (_values c !! i) as [v|] eqn:Hvi; [| reflexivity]. simpl.
  destruct (lookup_lt_is_Some_2 (_times c) i) as [t Hti].
  { rewrite (constructed_lengths c Hc). eapply lookup_lt_Some. eassumption. }
  rewrite Hti. simpl. f_equal.
  replace (- 0 * t) with 0 by lra. rewrite exp_0. lra.
Qed.

(** X22.  Bumps add up: at every node the value of [bump(a + b)] is the value
    of [bump(a)] scaled by [exp (-b t)]. *)
Theorem bump_sizes_add (self : obj) (a b : R) (h : heap) (c : t) :
  load h self = Some c → constructed c →
  ∃ d1 h1 va d2 h2 vab,
    bump self a h = Ok (DiscountCurveObject d1, h1) ∧
    h1 !! disc_values d1 = Some va ∧
    bump self (a + b) h = Ok (DiscountCurveObject d2, h2) ∧
    h2 !! disc_values d2 = Some vab ∧
    length va = length vab ∧
    ∀ i x t, va !! i = Some x → _times c !! i = Some t →
      vab !! i = Some (x * exp (- b * t)).
Proof.
  intros Hload Hc.
  destruct (bump_effect self a h c Hload Hc)
    as (d1 & va & h1 & Hrun1 & _ & _ & Hv1 & _ & _ & _ & Hl1 & Hp1 & _).
  destruct (bump_effect self (a + b) h c Hload Hc)
    as (d2 & vab & h2 & Hrun2 & _ & _ & Hv2 & _ & _ & _ & Hl2 & Hp2 & _).
  exists d1, h1, va, d2, h2, vab.
  repeat split; try assumption; [congruence |].
  intros i x t Hx Ht. rewrite Hp1 in Hx. rewrite Hp2.
  unfold bumped_at in *. rewrite Ht in *.
  destruct (_values c !! i) as [v|]; [| discriminate]. simpl in *.
  injection Hx as <-. f_equal.
  replace (- (a + b) * t) with (- a * t + - b * t) by lra.
  rewrite exp_plus. lra.
Qed.

(** X23.  [bump] is a parallel shift of the continuously compounded zero
    rates: at a node with nonzero time and positive value the rate
    [-ln(value)/t] of the new curve is that of the source plus the bump
    size, and the new value is positive. *)
Theorem bump_shifts_zero_rates (self : obj) (bumpSize : R) (h : heap)
    (c : t) :
  load h self = Some c → constructed c →
  ∃ d h' vs', bump self bumpSize h = Ok (DiscountCurveObject d, h') ∧
    h' !! disc_values d = Some vs' ∧
    ∀ i v t, _values c !! i = Some v → _times c !! i = Some t →
      0 < v → t ≠ 0 →
      ∃ v', vs' !! i = Some v' ∧ 0 < v' ∧
            - ln v' / t = - ln v / t + bumpSize.
Proof.
  intros Hload Hc.
  destruct (bump_effect self bumpSize h c Hload Hc)
    as (d & vs' & h' & Hrun & _ & _ & Hv & _ & _ & _ & _ & Hpt & _).
  exists d, h', vs'. split; [exact Hrun |]. split; [exact Hv |].
  intros i v t Hvi Hti Hpos Htz.
  exists (v * exp (- bumpSize * t)). split; [| split].
  - rewrite Hpt. unfold bumped_at. rewrite Hvi, Hti. reflexivity.
  - apply Rmult_lt_0_compat; [assumption | apply exp_pos].
  - rewrite ln_mult by (assumption || apply exp_pos).
    rewrite ln_exp. field. assumption.
Qed.

(** X24.  A second [bump] of the same source returns again; it leaves the
    source and both arrays of the first bumped curve as they were, and
    shares no array with the first. *)
Theorem bump_twice (self : obj) (a b : R) (h : heap) (c : t) :
  load h self = Some c → constructed c →
  ∃ o1 h1 o2 h2,
    bump self a h = Ok (o1, h1) ∧ bump self b h1 = Ok (o2, h2) ∧
    load h2 self = Some c ∧
    ∀ r, r ∈ refs_of o1 → h2 !! r = h1 !! r ∧ r ∉ refs_of o2.
Proof.
  intros Hload Hc.
  destruct (bump_effect self a h c Hload Hc)
    as (d1 & v1 & h1 & Hrun1 & _ & Ht1 & Hv1 & _ & _ & _ & _ & _ & _ & Hload1).
  destruct (bump_effect self b h1 c Hload1 Hc)
    as (d2 & v2 & h2 & Hrun2 & _ & _ & _ & Hfa & Hfb & _ & _ & _ & Hframe
        & Hload2).
  exists (DiscountCurveObject d1), h1, (DiscountCurveObject d2), h2.
  split; [exact Hrun1 |]. split; [exact Hrun2 |]. split; [exact Hload2 |].
  intros r Hr.
  assert (Hin : r ∈ dom h1).
  { simpl in Hr. apply elem_of_cons in Hr as [->|Hr];
      [| apply elem_of_cons in Hr as [->|Hr];
         [| apply elem_of_nil in Hr; contradiction]];
      apply elem_of_dom; eauto. }
  split; [apply Hframe; assumption |].
  simpl. intros Hr2.
  apply elem_of_cons in Hr2 as [->|Hr2];
    [| apply elem_of_cons in Hr2 as [->|Hr2];
       [| apply elem_of_nil in Hr2; contradiction]]; contradiction.
Qed.

End HeapExtras.

(** ** The further properties on the sample market *)

Module SampleExtras.
Import FinZeroCurve Sample SampleFacts.

Lemma node_value_positive b e : 0 < 1 / Rpower b e.
Proof. unfold Rpower. apply Rdiv_lt_0_compat; [lra | apply exp_pos]. Defined.

Lemma constructed_curve_invariants_witness :
  length (_times curve) = 3%nat ∧ Forall (λ t, 0 <= t) (_times curve).
Proof.
  destruct (constructed_curve_invariants (coll := collaborators) d0 offsets
              rates (Member ANNUAL) (Member ACT_365) FLAT_FORWARDS curve
              curve_built) as (Hlen & _ & _ & Hpos & _).
  split; [exact Hlen | exact Hpos].
Defined.

Lemma constructed_values_positive_witness :
  Forall (λ v, 0 < v) (_values curve).
Proof.
  apply (constructed_values_positive (coll := collaborators) d0 offsets rates
           ANNUAL ACT_365 FLAT_FORWARDS curve curve_built).
  intros r Hr _. simpl. unfold rates in Hr.
  repeat (apply elem_of_cons in Hr as [->|Hr]; [lra |]).
  apply elem_of_nil in Hr. contradiction.
Defined.

Lemma validation_order_witness :
  __init__ d0 [] rates (Foreign "1") (Foreign "2") FLAT_FORWARDS
  = Raise (FinError "Times has zero length") ∧
  __init__ d0 offsets [0.01] (Foreign "1") (Foreign "2") FLAT_FORWARDS
  = Raise (FinError "Times and Values are not the same") ∧
  __init__ d0 offsets rates (Foreign "1") (Foreign "2") FLAT_FORWARDS
  = Raise (FinError ("Unknown Frequency type " +:+ "1")) ∧
  __init__ d0 offsets rates (Member ANNUAL) (Foreign "2") FLAT_FORWARDS
  = Raise (FinError ("Unknown Cap Floor DayCountRule type " +:+ "2")).
Proof.
  split; [| split; [| split]].
  - apply (validation_order (coll := collaborators) d0 [] rates (Foreign "1")
             (Foreign "2") FLAT_FORWARDS). reflexivity.
  - apply (validation_order (coll := collaborators) d0 offsets [0.01]
             (Foreign "1") (Foreign "2") FLAT_FORWARDS);
      [discriminate | simpl; lia].
  - apply (validation_order (coll := collaborators) d0 offsets rates
             (Foreign "1") (Foreign "2") FLAT_FORWARDS);
      [discriminate | reflexivity | reflexivity].
  - apply (proj2 (proj2 (proj2
             (validation_order (coll := collaborators) d0 offsets rates
                (Member ANNUAL) (Foreign "2") FLAT_FORWARDS))))
      with (ft := ANNUAL); [discriminate | reflexivity..].
Defined.

Lemma negative_time_refused_witness :
  __init__ d0 sinking [0.01; 0.02] (Member ANNUAL) (Member ACT_365)
    FLAT_FORWARDS
  = Raise (FinError "Times must be > 0.").
Proof.
  apply (negative_time_refused (coll := collaborators) d0 sinking
           [0.01; 0.02] ANNUAL ACT_365 FLAT_FORWARDS [1; -1]).
  - unfold well_typed. simpl. repeat constructor.
  - reflexivity.
  - simpl. lia.
  - reflexivity.
  - apply Exists_cons_tl, Exists_cons_hd. lra.
Defined.


Lemma construction_returns_witness :
  ∃ c, __init__ d0 offsets rates (Member ANNUAL) (Member ACT_365)
         FLAT_FORWARDS = Ok c ∧ _times c = [0; 1; 2].
Proof.
  apply (construction_returns (coll := collaborators) d0 offsets rates ANNUAL
           ACT_365 FLAT_FORWARDS [0; 1; 2]).
  - unfold well_typed. simpl. repeat constructor.
  - reflexivity.
  - simpl. lia.
  - reflexivity.
  - repeat constructor; lra.
  - simpl. run. reflexivity.
Defined.

Lemma first_failing_quote_decides_witness :
  __init__ d0 broken [0; 0.01; 0.02] (Member ANNUAL) (Member ACT_365)
    FLAT_FORWARDS
  = Raise TypeError.
Proof.
  apply (first_failing_quote_decides (coll := collaborators) d0 broken
           [0; 0.01; 0.02] ANNUAL ACT_365 FLAT_FORWARDS (float_quote 1)
           1%nat (PyStr "1Y") 0.01 TypeError); try reflexivity.
  intros j tdj rj Hj Htd Hr.
  destruct j as [|j]; [| lia].
  injection Htd as <-. injection Hr as <-.
  eexists. run. reflexivity.
Defined.

Lemma time_zero_stores_one_witness :
  _times curve !! 0%nat = Some 0 ∧ _values curve !! 0%nat = Some 1.
Proof.
  apply (time_zero_stores_one (coll := collaborators) d0 offsets rates ANNUAL
           ACT_365 FLAT_FORWARDS curve 0 0%nat 0 curve_built);
    reflexivity.
Defined.

Lemma zero_rate_stores_one_witness : _values curve !! 0%nat = Some 1.
Proof.
  apply (zero_rate_stores_one (coll := collaborators) d0 offsets rates ANNUAL
           ACT_365 FLAT_FORWARDS curve 0%nat (PyFloat 0) curve_built);
    reflexivity.
Defined.

Lemma positive_rate_discounts_witness :
  ∃ v, _values curve !! 1%nat = Some v ∧ 0 < v < 1.
Proof.
  apply (positive_rate_discounts (coll := collaborators) d0 offsets rates
           ANNUAL ACT_365 FLAT_FORWARDS curve 0 1%nat 1 0.02 curve_built);
    try reflexivity; try lra.
  right. simpl. lia.
Defined.

Lemma continuous_ignores_day_count_witness :
  grid_of (__init__ d0 dates rates (Member CONTINUOUS) (Member ACT_365)
             FLAT_FORWARDS)
  = grid_of (__init__ d0 dates rates (Member CONTINUOUS) (Member ACT_360)
               FLAT_FORWARDS).
Proof.
  apply (continuous_ignores_day_count (coll := collaborators) d0 dates rates
           CONTINUOUS ACT_365 ACT_360 FLAT_FORWARDS).
  reflexivity.
Defined.

Lemma float_mode_ignores_date_and_day_count_witness :
  grid_of (__init__ d0 offsets rates (Member ANNUAL) (Member ACT_365)
             FLAT_FORWARDS)
  = grid_of (__init__ d1 offsets rates (Member ANNUAL) (Member ACT_360)
               FLAT_FORWARDS).
Proof.
  apply (float_mode_ignores_date_and_day_count (coll := collaborators) d0 d1
           offsets rates (Member ANNUAL) ACT_365 ACT_360 FLAT_FORWARDS 0).
  reflexivity.
Defined.

Lemma zeroRate_reproduces_discount_factor_witness :
  ∃ z, zeroRate curve (PyFloat 1) 2 = Ok z ∧
       quoted_df 2 z 1 1 = 1 / Rpower (1 + 0.02 / 1) (1 * 1).
Proof.
  apply (zeroRate_reproduces_discount_factor (coll := collaborators)
           (help := helpers) curve (PyFloat 1) 2%Z 2%Z 1 _ time_one eq_refl
           df_one).
  - lia.
  - lra.
  - apply node_value_positive.
Defined.

Lemma fwd_of_constant_rate_witness :
  fwd (coll := flat_collaborators) curve (PyFloat 1) = Ok 0.05.
Proof.
  apply (fwd_of_constant_rate (coll := flat_collaborators) (help := helpers)
           curve (PyFloat 1) 1 0.05 time_one).
  - unfold df. simpl. unfold input_time. run. reflexivity.
  - unfold df. simpl. unfold input_time. run. reflexivity.
Defined.

Lemma fwd_positive_on_falling_curve_witness :
  ∃ f, fwd (coll := flat_collaborators) curve (PyFloat 1) = Ok f ∧ 0 < f.
Proof.
  apply (fwd_positive_on_falling_curve (coll := flat_collaborators)
           (help := helpers) curve (PyFloat 1) 1 (exp (- (0.05) * 1))
           (exp (- (0.05) * (1 + 0.000001))) time_one).
  - unfold df. simpl. unfold input_time. run. reflexivity.
  - unfold df. simpl. unfold input_time. run. reflexivity.
  - apply exp_pos.
  - apply exp_increasing. lra.
Defined.

Lemma df_at_d1 :
  df curve (PyDate d1) = Ok (1 / Rpower (1 + 0.02 / 1) (1 * 1)).
Proof. unfold df. simpl. unfold input_time. run. reflexivity. Defined.

Lemma df_at_d2 :
  df curve (PyDate d2) = Ok (1 / Rpower (1 + 0.03 / 1) (1 * 2)).
Proof. unfold df. simpl. unfold input_time. run. reflexivity. Defined.

Lemma fwdRate_sample :
  fwdRate curve d1 d2 ACT_365
  = Ok ((1 / Rpower (1 + 0.02 / 1) (1 * 1)
         / (1 / Rpower (1 + 0.03 / 1) (1 * 2)) - 1)
        / year_fraction ACT_365 d1 d2).
Proof.
  unfold fwdRate.
  destruct (decide (date_lt d1 (_curveDate curve))) as [Hlt|_];
    [exfalso; unfold date_lt in Hlt; simpl in Hlt; lia |].
  destruct (decide (date_lt d2 d1)) as [Hlt|_];
    [exfalso; unfold date_lt in Hlt; simpl in Hlt; lia |].
  rewrite df_at_d1, df_at_d2. simpl.
  rewrite pydiv_Ok
    by (apply Rgt_not_eq, Rlt_gt, (node_value_positive (1 + 0.03 / 1))).
  simpl. rewrite pydiv_Ok; [reflexivity |]. simpl. days. lra.
Defined.

Lemma fwdRate_simple_compounding_witness :
  1 / Rpower (1 + 0.02 / 1) (1 * 1)
  = 1 / Rpower (1 + 0.03 / 1) (1 * 2)
    * (1 + (1 / Rpower (1 + 0.02 / 1) (1 * 1)
            / (1 / Rpower (1 + 0.03 / 1) (1 * 2)) - 1)
           / year_fraction ACT_365 d1 d2
           * year_fraction ACT_365 d1 d2).
Proof.
  apply (fwdRate_simple_compounding (coll := collaborators) (help := helpers)
           curve d1 d2 ACT_365 _ _ _ fwdRate_sample df_at_d1 df_at_d2).
Defined.

Lemma fwdRate_zero_division_witness :
  fwdRate curve d1 d1 ACT_365 = Raise ZeroDivisionError.
Proof.
  apply (fwdRate_zero_division (coll := collaborators) (help := helpers)
           curve d1 d1 ACT_365 _ _) with (3 := df_at_d1) (4 := df_at_d1).
  - unfold date_lt. simpl. lia.
  - unfold date_lt. simpl. lia.
  - right. simpl. days. lra.
Defined.

Lemma fwdRate_error_messages_witness :
  fwdRate curve (mkDate 43000) (mkDate 42000) ACT_365
  = Raise (ValueError "Date1 before curve value date.") ∧
  fwdRate curve d2 d1 ACT_365
  = Raise (ValueError "Date2 must not be before Date1").
Proof.
  split.
  - apply (fwdRate_error_messages (coll := collaborators) (help := helpers)
             curve (mkDate 43000) (mkDate 42000) ACT_365).
    unfold date_lt. simpl. lia.
  - apply (fwdRate_error_messages (coll := collaborators) (help := helpers)
             curve d2 d1 ACT_365); unfold date_lt; simpl; lia.
Defined.

Lemma repr_of_constructed_curve_witness :
  __repr__ curve = Ok (rendered (_times curve) (_values curve)).
Proof.
  apply (repr_of_constructed_curve (coll := collaborators) d0 offsets rates
           (Member ANNUAL) (Member ACT_365) FLAT_FORWARDS curve curve_built).
Defined.

Lemma bump_zero_copies_witness :
  ∃ d h', bump self0 0 heap0 = Ok (DiscountCurveObject d, h') ∧
    h' !! disc_times d = Some (_times curve) ∧
    h' !! disc_values d = Some (_values curve).
Proof.
  apply (bump_zero_copies (coll := collaborators) self0 heap0 curve
           load_self0 curve_constructed).
Defined.

Lemma bump_sizes_add_witness :
  ∃ d1 h1 va d2 h2 vab,
    bump self0 0.01 heap0 = Ok (DiscountCurveObject d1, h1) ∧
    h1 !! disc_values d1 = Some va ∧
    bump self0 (0.01 + 0.02) heap0 = Ok (DiscountCurveObject d2, h2) ∧
    h2 !! disc_values d2 = Some vab ∧
    length va = length vab ∧
    ∀ i x t, va !! i = Some x → _times curve !! i = Some t →
      vab !! i = Some (x * exp (- (0.02) * t)).
Proof.
  apply (bump_sizes_add (coll := collaborators) self0 0.01 0.02 heap0 curve
           load_self0 curve_constructed).
Defined.

Lemma bump_shifts_zero_rates_witness :
  ∃ d h' vs', bump self0 0.01 heap0 = Ok (DiscountCurveObject d, h') ∧
    h' !! disc_values d = Some vs' ∧
    ∃ v', vs' !! 1%nat = Some v' ∧ 0 < v' ∧
      - ln v' / 1 = - ln (1 / Rpower (1 + 0.02 / 1) (1 * 1)) / 1 + 0.01.
Proof.
  destruct (bump_shifts_zero_rates (coll := collaborators) self0 0.01 heap0
              curve load_self0 curve_constructed)
    as (d & h' & vs' & Hrun & Hv & Hnode).
  exists d, h', vs'. split; [exact Hrun |]. split; [exact Hv |].
  apply (Hnode 1%nat _ 1); [reflexivity | reflexivity | | lra].
  apply node_value_positive.
Defined.

Lemma bump_twice_witness :
  ∃ o1 h1 o2 h2,
    bump self0 0.01 heap0 = Ok (o1, h1) ∧ bump self0 0.02 h1 = Ok (o2, h2) ∧
    load h2 self0 = Some curve.
Proof.
  destruct (bump_twice (coll := collaborators) self0 0.01 0.02 heap0 curve
              load_self0 curve_constructed)
    as (o1 & h1 & o2 & h2 & H1 & H2 & Hload & _).
  exists o1, h1, o2, h2. auto.
Defined.

End SampleExtras.
